(** * Mode: provider-agnostic streaming chat client and its client cache

    A shallow embedding of
      - [src/common/llms/aiClient.ts]         (class [AIClient]),
      - [src/common/llms/aiClientFactory.ts]  (class [AIClientFactory]),
      - [src/capabilities/chat/request/chat.manager.ts]
                                              (class [ChatManager], overview part),
    followed by the properties of the specification that concern them. *)

From Stdlib Require Import Ascii String.
From stdpp Require Import base option list strings gmap.

Local Open Scope string_scope.

(** ** JavaScript string primitives used by the sources *)

Module JsString.

(** [s.startsWith(pfx)] *)
Fixpoint startsWith (s pfx : string) {struct pfx} : bool :=
  match pfx with
  | EmptyString => true
  | String a pfx' =>
      match s with
      | EmptyString => false
      | String b s' => if Ascii.eqb a b then startsWith s' pfx' else false
      end
  end.

(** [s.includes(sub)] *)
Fixpoint includes (s sub : string) {struct s} : bool :=
  startsWith s sub ||
  match s with
  | EmptyString => false
  | String _ s' => includes s' sub
  end.

(** Truthiness of a string: only the empty string is falsy. *)
Definition truthy (s : string) : bool :=
  match s with
  | EmptyString => false
  | String _ _ => true
  end.

(** [a || b] on strings. *)
Definition orElse (a b : string) : string :=
  if truthy a then a else b.

(** [s.slice(n)] *)
Fixpoint drop (n : nat) (s : string) : string :=
  match n, s with
  | O, _ => s
  | S _, EmptyString => EmptyString
  | S n', String _ s' => drop n' s'
  end.

(** Does the character [c] occur in [s]? *)
Fixpoint occurs (c : ascii) (s : string) : bool :=
  match s with
  | EmptyString => false
  | String b s' => Ascii.eqb c b || occurs c s'
  end.

(** The part of [s] before the first occurrence of [c] (all of [s] when
    there is none). *)
Fixpoint before (c : ascii) (s : string) : string :=
  match s with
  | EmptyString => EmptyString
  | String b s' => if Ascii.eqb c b then EmptyString else String b (before c s')
  end.

End JsString.

Import JsString.

(** ** Data model ([aiClient.ts], lines 11-27) *)

Inductive Role := user | assistant | system.

(** An element of an array content.  The source types it [any]; the
    elements the code distinguishes are raw strings and structured parts,
    of which it reads the [type] and [text] properties. *)
Record PartObject := {
  part_type : option string;
  part_text : option string;
  part_rest : list (string * string)
}.

Inductive Part :=
| RawString (s : string)
| Structured (o : PartObject).

(** [content: string | Array<any>] *)
Inductive Content :=
| Text (s : string)
| Parts (items : list Part).

(** [type?: 'image'] *)
Inductive MessageType := image.

Record AIMessage := {
  role : Role;
  content : Content;
  name : option string;
  type : option MessageType
}.

Inductive Callback :=
| onToken (token : string)
| onComplete (fullText : string).

(** Values a JavaScript [throw] can carry: an [Error] object with its
    message; another value, without a [message] property or with one
    (given as it prints); [null]; [undefined]. *)
Inductive Exn :=
| JsError (message : string)
| Thrown (value : string)
| ThrownWithMessage (message : string)
| ThrownNull
| ThrownUndefined.

(** [`${(error as Error).message}`]: the cast checks nothing, so the
    property is read off whatever was thrown.  A missing property prints
    as [undefined]; reading a property of [null] or [undefined] throws. *)
Definition message_of (e : Exn) : Exn + string :=
  match e with
  | JsError m => inr m
  | Thrown _ => inr "undefined"
  | ThrownWithMessage m => inr m
  | ThrownNull => inl (JsError "Cannot read properties of null (reading 'message')")
  | ThrownUndefined =>
      inl (JsError "Cannot read properties of undefined (reading 'message')")
  end.

#[global] Instance Role_eq_dec : EqDecision Role.
Proof. solve_decision. Defined.
#[global] Instance PartObject_eq_dec : EqDecision PartObject.
Proof. solve_decision. Defined.
#[global] Instance Part_eq_dec : EqDecision Part.
Proof. solve_decision. Defined.
#[global] Instance Content_eq_dec : EqDecision Content.
Proof. solve_decision. Defined.
#[global] Instance MessageType_eq_dec : EqDecision MessageType.
Proof. solve_decision. Defined.
#[global] Instance AIMessage_eq_dec : EqDecision AIMessage.
Proof. solve_decision. Defined.
#[global] Instance Exn_eq_dec : EqDecision Exn.
Proof. solve_decision. Defined.

(** ** Message normalizer: [filterDiagnosticMessages] (lines 68-82) *)

Definition sentinel : string := "Mode.".

(** The callback of [msg.content.some(...)]:
    [typeof item === 'string' && item.startsWith('Mode.') ||
     (item.type === 'text' && item.text?.startsWith('Mode.'))].
    A raw string has no [type] property, so the second disjunct is false
    for it. *)
Definition itemStartsWithSentinel (item : Part) : bool :=
  match item with
  | RawString s => startsWith s sentinel
  | Structured o =>
      bool_decide (part_type o = Some "text") &&
      match part_text o with
      | Some t => startsWith t sentinel
      | None => false
      end
  end.

(** The predicate handed to [messages.filter]. *)
Definition keepMessage (msg : AIMessage) : bool :=
  match content msg with
  | Text s => negb (startsWith s sentinel)
  | Parts items => negb (existsb itemStartsWithSentinel items)
  end.

Definition filterDiagnosticMessages (messages : list AIMessage) : list AIMessage :=
  List.filter keepMessage messages.

(** *** The specification's reading of a diagnostic message *)

Inductive Diagnostic (m : AIMessage) : Prop :=
| diag_string s :
    content m = Text s -> startsWith s sentinel = true -> Diagnostic m
| diag_text_part items o t :
    content m = Parts items -> In (Structured o) items ->
    part_type o = Some "text" -> part_text o = Some t ->
    startsWith t sentinel = true -> Diagnostic m
| diag_raw_element items s :
    content m = Parts items -> In (RawString s) items ->
    startsWith s sentinel = true -> Diagnostic m.

(** [Survivors ms out]: [out] is [ms] with exactly the diagnostic messages
    taken out, the others left as they are and in their order. *)
Inductive Survivors : list AIMessage -> list AIMessage -> Prop :=
| surv_nil : Survivors [] []
| surv_drop m ms out : Diagnostic m -> Survivors ms out -> Survivors (m :: ms) out
| surv_keep m ms out : ~ Diagnostic m -> Survivors ms out -> Survivors (m :: ms) (m :: out).

(** ** Message normalizer: [formatImageContent] (lines 333-368) *)

(** The object literals [formatImageContent] builds. *)
Inductive ImageBlock :=
| image_block (source_type media_type data : string)
    (* { type: "image", source: { type, media_type, data } } *)
| text_block (text : string)
    (* { type: "text", text } *)
| image_url_block (url : string)
    (* { type: "image_url", image_url: { url } } *)
| google_text (text : string)
    (* { text } *)
| inline_data (data mimeType : string).
    (* { inlineData: { data, mimeType } } *)

(** The function returns an array of blocks or a plain string. *)
Inductive Formatted :=
| Blocks (blocks : list ImageBlock)
| Plain (s : string).

#[global] Instance ImageBlock_eq_dec : EqDecision ImageBlock.
Proof. solve_decision. Defined.
#[global] Instance Formatted_eq_dec : EqDecision Formatted.
Proof. solve_decision. Defined.

(** [imageData.startsWith('data:image/png') ? 'image/png' : 'image/jpeg'] *)
Definition detectMediaType (imageData : string) : string :=
  if startsWith imageData "data:image/png" then "image/png" else "image/jpeg".

(** [imageData.replace(/^data:image\/(png|jpeg);base64,/, '')]: the
    anchored pattern matches one of two literal prefixes, or nothing. *)
Definition stripBase64Header (imageData : string) : string :=
  if startsWith imageData "data:image/png;base64," then
    drop (String.length "data:image/png;base64,") imageData
  else if startsWith imageData "data:image/jpeg;base64," then
    drop (String.length "data:image/jpeg;base64,") imageData
  else imageData.

Definition formatImageContent (provider imageData : string) : Formatted :=
  if String.eqb provider "anthropic" then
    Blocks [ image_block "base64" (detectMediaType imageData) (stripBase64Header imageData);
             text_block "Describe this image." ]
  else if String.eqb provider "openai" then
    Blocks [ image_url_block imageData ]
  else if String.eqb provider "google" then
    Blocks [ google_text "Here's an image: ";
             inline_data imageData (detectMediaType imageData) ]
  else if String.eqb provider "mistral" || String.eqb provider "cohere" then
    Plain ("[Image input not supported for " +:+ provider +:+ "]")
  else
    Plain "[Image]".

(** ** The client object ([aiClient.ts], lines 29-66) *)

(** A handle of a backend SDK, remembering the key it was built with. *)
Record Handle := { handle_class : string; handle_key : option string }.

Record AIClientConfig := {
  cfg_provider : string;
  cfg_apiKey : option string;
  cfg_model : option string;
  cfg_endpoint : option string   (* passed by the factory, read by nobody *)
}.

Record AIClient := {
  anthropicClient : option Handle;
  openaiClient : option Handle;
  googleClient : option Handle;
  cohereClient : option Handle;
  mistralClient : option Handle;
  provider : string;
  model : option string;          (* [model!: string], unassigned until the constructor sets it *)
  isCancelled : bool;
  googleFileManager : option Handle
}.

(** [config.model || fallback] *)
Definition modelOr (m : option string) (fallback : string) : string :=
  match m with
  | Some s => orElse s fallback
  | None => fallback
  end.

(** The object before the [switch] of the constructor runs. *)
Definition freshClient (p : string) : AIClient :=
  {| anthropicClient := None; openaiClient := None; googleClient := None;
     cohereClient := None; mistralClient := None; provider := p;
     model := None; isCancelled := false; googleFileManager := None |}.

Definition set_model (m : string) (c : AIClient) : AIClient :=
  {| anthropicClient := anthropicClient c; openaiClient := openaiClient c;
     googleClient := googleClient c; cohereClient := cohereClient c;
     mistralClient := mistralClient c; provider := provider c;
     model := Some m; isCancelled := isCancelled c;
     googleFileManager := googleFileManager c |}.

Definition set_isCancelled (b : bool) (c : AIClient) : AIClient :=
  {| anthropicClient := anthropicClient c; openaiClient := openaiClient c;
     googleClient := googleClient c; cohereClient := cohereClient c;
     mistralClient := mistralClient c; provider := provider c;
     model := model c; isCancelled := b;
     googleFileManager := googleFileManager c |}.

(** The SDK constructors are external and may throw. *)
Definition SdkNew := string -> option string -> Exn + Handle.

(** [constructor(config)].  The [switch] has no [default]: an id outside
    the five cases leaves every handle and the model unset. *)
Definition newAIClient (sdkNew : SdkNew) (config : AIClientConfig) : Exn + AIClient :=
  let this := freshClient (cfg_provider config) in
  let key := cfg_apiKey config in
  if String.eqb (cfg_provider config) "anthropic" then
    match sdkNew "Anthropic" key with
    | inl e => inl e
    | inr h =>
        inr (set_model (modelOr (cfg_model config) "claude-3-sonnet-20240229")
               {| anthropicClient := Some h; openaiClient := None; googleClient := None;
                  cohereClient := None; mistralClient := None; provider := provider this;
                  model := None; isCancelled := false; googleFileManager := None |})
    end
  else if String.eqb (cfg_provider config) "openai" then
    match sdkNew "OpenAI" key with
    | inl e => inl e
    | inr h =>
        inr (set_model (modelOr (cfg_model config) "gpt-4-turbo-preview")
               {| anthropicClient := None; openaiClient := Some h; googleClient := None;
                  cohereClient := None; mistralClient := None; provider := provider this;
                  model := None; isCancelled := false; googleFileManager := None |})
    end
  else if String.eqb (cfg_provider config) "google" then
    match sdkNew "GoogleGenerativeAI" key with
    | inl e => inl e
    | inr h =>
        match sdkNew "GoogleAIFileManager" key with
        | inl e => inl e
        | inr fm =>
            inr (set_model (modelOr (cfg_model config) "gemini-pro")
                   {| anthropicClient := None; openaiClient := None; googleClient := Some h;
                      cohereClient := None; mistralClient := None; provider := provider this;
                      model := None; isCancelled := false; googleFileManager := Some fm |})
        end
    end
  else if String.eqb (cfg_provider config) "cohere" then
    match sdkNew "Cohere" key with
    | inl e => inl e
    | inr h =>
        inr (set_model (modelOr (cfg_model config) "command")
               {| anthropicClient := None; openaiClient := None; googleClient := None;
                  cohereClient := Some h; mistralClient := None; provider := provider this;
                  model := None; isCancelled := false; googleFileManager := None |})
    end
  else if String.eqb (cfg_provider config) "mistral" then
    match sdkNew "Mistral" key with
    | inl e => inl e
    | inr h =>
        inr (set_model (modelOr (cfg_model config) "mistral-medium")
               {| anthropicClient := None; openaiClient := None; googleClient := None;
                  cohereClient := None; mistralClient := Some h; provider := provider this;
                  model := None; isCancelled := false; googleFileManager := None |})
    end
  else inr this.

(** [getProvider()] *)
Definition getProvider (this : AIClient) : string := provider this.

(** [stopGeneration()] (lines 110-112) *)
Definition stopGeneration (this : AIClient) : AIClient := set_isCancelled true this.

(** ** Requests handed to the backend SDKs *)

Definition roleName (r : Role) : string :=
  match r with
  | user => "user"
  | assistant => "assistant"
  | system => "system"
  end.

(** What a request carries for one message: the value of
    [formatImageContent], or the message content (possibly rebuilt). *)
Inductive Payload :=
| Image (f : Formatted)
| Body (c : Content).

Record RequestMessage := { rm_role : string; rm_content : Payload }.

Record Request := {
  req_model : option string;
  req_system : option Content;                  (* Anthropic's [system] field *)
  req_messages : list RequestMessage;           (* [messages], or Google's [history] *)
  req_prompt : option Payload;                  (* Google: parts of the last message *)
  req_limit : option (string * nat);            (* token limit: property name and value *)
  req_stream : option bool;
  req_temperature : string                      (* [LLMChatParams.temperature], as written *)
}.

Definition isImageData (c : Content) : bool :=
  match c with
  | Text s => startsWith s "data:image"
  | Parts _ => false
  end.

Definition textBlocks (c : Content) : Content :=
  match c with
  | Parts items => Parts items
  | Text s => Parts [Structured {| part_type := Some "text"; part_text := Some s; part_rest := [] |}]
  end.

Definition googleParts (c : Content) : Content :=
  match c with
  | Parts items => Parts items
  | Text s => Parts [Structured {| part_type := None; part_text := Some s; part_rest := [] |}]
  end.

Definition dataOf (c : Content) : string :=
  match c with
  | Text s => s
  | Parts _ => ""
  end.

Definition notImage (msg : AIMessage) : bool := negb (bool_decide (type msg = Some image)).

(** The request-building code reads two things from outside the class:
    [JSON.stringify] and [LLMChatParams.temperature]. *)
Record Host := {
  JSON_stringify : list Part -> string;
  temperature : string
}.

Section Requests.
Context (host : Host).

(** [anthropicChat], lines 118-138 *)
Definition anthropicRequest (this : AIClient) (messages : list AIMessage) : Request :=
  let systemMessage :=
    content <$> List.find (fun msg => bool_decide (role msg = system)) messages in
  let nonSystemMessages :=
    map (fun msg =>
           {| rm_role := roleName (role msg);
              rm_content :=
                if isImageData (content msg)
                then Image (formatImageContent "anthropic" (dataOf (content msg)))
                else Body (textBlocks (content msg)) |})
        (List.filter (fun msg => negb (bool_decide (role msg = system))) messages) in
  {| req_model := model this; req_system := systemMessage;
     req_messages := nonSystemMessages; req_prompt := None;
     req_limit := Some ("max_tokens", 4096); req_stream := Some true;
     req_temperature := temperature host |}.

Definition isO1 (this : AIClient) : bool :=
  match model this with
  | Some m => startsWith m "o1"
  | None => false
  end.

(** [openaiChat], lines 168-179 *)
Definition openaiRequest (this : AIClient) (messages : list AIMessage) : Request :=
  {| req_model := model this; req_system := None;
     req_messages :=
       map (fun msg =>
              {| rm_role :=
                   if isO1 this && bool_decide (role msg = system)
                   then "user" else roleName (role msg);
                 rm_content :=
                   if isImageData (content msg)
                   then Image (formatImageContent "openai" (dataOf (content msg)))
                   else Body (content msg) |})
           messages;
     req_prompt := None;
     req_limit :=
       Some (if isO1 this then "max_completion_tokens" else "max_tokens", 4096);
     req_stream := Some true;
     req_temperature := temperature host |}.

(** [googleChat], lines 206-229: the processed messages, of which all
    but the last make the history and the last one is sent. *)
Definition googleProcessed (messages : list AIMessage) : list RequestMessage :=
  map (fun msg =>
         {| rm_role := if bool_decide (role msg = assistant) then "model" else "user";
            rm_content :=
              if isImageData (content msg)
              then Image (formatImageContent "google" (dataOf (content msg)))
              else Body (googleParts (content msg)) |})
      (List.filter notImage messages).

Definition googleRequest (this : AIClient) (messages : list AIMessage) : Request :=
  let processedMessages := googleProcessed messages in
  {| req_model := model this; req_system := None;
     req_messages := removelast processedMessages;
     req_prompt := rm_content <$> last processedMessages;
     req_limit := None; req_stream := None;
     req_temperature := temperature host |}.

(** [cohereChat], lines 260-271 *)
Definition cohereRequest (this : AIClient) (messages : list AIMessage) : Request :=
  {| req_model := model this; req_system := None;
     req_messages :=
       map (fun msg => {| rm_role := roleName (role msg); rm_content := Body (content msg) |})
           (List.filter notImage messages);
     req_prompt := None; req_limit := None; req_stream := None;
     req_temperature := temperature host |}.

(** [typeof msg.content === 'string' ? msg.content : JSON.stringify(msg.content)] *)
Definition mistralContent (c : Content) : string :=
  match c with
  | Text s => s
  | Parts items => JSON_stringify host items
  end.

(** [mistralChat], lines 299-311 *)
Definition mistralRequest (this : AIClient) (messages : list AIMessage) : Request :=
  {| req_model := model this; req_system := None;
     req_messages :=
       map (fun msg =>
              {| rm_role := roleName (role msg);
                 rm_content := Body (Text (mistralContent (content msg))) |})
           (List.filter notImage messages);
     req_prompt := None; req_limit := None; req_stream := Some true;
     req_temperature := temperature host |}.

End Requests.

(** ** Streams and chunks *)

(** What happens, in order, while an adapter consumes a stream: the
    iterator delivers a chunk, the iterator throws, or somebody calls
    [stopGeneration] while the adapter is suspended at an [await].  The
    end of the list is the end of the stream. *)
Inductive Event (C : Type) :=
| Stop
| Yield (chunk : C)
| Raise (error : Exn).
Arguments Stop {C}.
Arguments Yield {C} chunk.
Arguments Raise {C} error.

(** The awaited call that opens the stream either fails ([stopped] tells
    whether [stopGeneration] ran in the meantime) or gives the stream; a
    [Stop] at the head of [events] is a stop request that arrived while
    the stream was being opened. *)
Inductive Response (C : Type) :=
| Rejected (stopped : bool) (error : Exn)
| Opened (events : list (Event C)).
Arguments Rejected {C} stopped error.
Arguments Opened {C} events.

Record AnthropicDelta := { delta_type : string; delta_text : string }.
Record AnthropicChunk := { chunk_type : string; chunk_delta : option AnthropicDelta }.

Record OpenAIDelta := { delta_content : option string }.
Record OpenAIChoice := { choice_delta : option OpenAIDelta }.
Record OpenAIChunk := { chunk_choices : list OpenAIChoice }.

(** [chunk.text()] *)
Record GoogleChunk := { chunk_text : string }.

(** [chunk.delta?.message?.content?.text], the optional chain collapsed. *)
Record CohereChunk := { cohere_type : string; cohere_text : option string }.

(** [delta.content] of Mistral is a string, an array of content chunks,
    or missing. *)
Inductive MistralContent :=
| mistral_string (s : string)
| mistral_array
| mistral_none.
Record MistralChoice := { mistral_delta_content : MistralContent }.
Record MistralChunk := { mistral_choices : list MistralChoice }.

(** The text each adapter takes out of a chunk; the empty string stands
    for every falsy value, which the loop skips. *)
Definition anthropicText (chunk : AnthropicChunk) : Exn + string :=
  inr (if String.eqb (chunk_type chunk) "content_block_delta" then
         match chunk_delta chunk with
         | Some d => if String.eqb (delta_type d) "text_delta" then delta_text d else ""
         | None => ""
         end
       else "").

Definition openaiText (chunk : OpenAIChunk) : Exn + string :=
  inr (match chunk_choices chunk with
       | choice :: _ =>
           match choice_delta choice with
           | Some d => default "" (delta_content d)
           | None => ""
           end
       | [] => ""
       end).

Definition googleText (chunk : GoogleChunk) : Exn + string :=
  inr (chunk_text chunk).

Definition cohereText (chunk : CohereChunk) : Exn + string :=
  inr (if String.eqb (cohere_type chunk) "content-delta"
       then default "" (cohere_text chunk) else "").

(** [chunk.data.choices[0].delta.content || ''], kept when it is a
    non-empty string; reading [delta] of a missing first choice throws. *)
Definition mistralText (chunk : MistralChunk) : Exn + string :=
  match mistral_choices chunk with
  | choice :: _ =>
      inr (match mistral_delta_content choice with
           | mistral_string s => s
           | mistral_array | mistral_none => ""
           end)
  | [] => inl (JsError "Cannot read properties of undefined (reading 'delta')")
  end.

(** ** The streaming loop shared by the five adapters *)

Record Outcome := {
  result : Exn + string;       (* the promise: rejected with an error, or resolved with text *)
  calls : list Callback;       (* the callbacks invoked, in order *)
  cancelled : bool             (* [this.isCancelled] when the call ends *)
}.

Section Loop.
Context {C : Type} (textOf : C -> Exn + string).

(** [try { for await (const chunk of response) { ... } } catch (error) { ... }
     callbacks.onComplete(fullText); return fullText;] *)
Fixpoint consume (isCancelled : bool) (fullText : string) (done : list Callback)
         (events : list (Event C)) : Outcome :=
  match events with
  | [] =>
      {| result := inr fullText; calls := done ++ [onComplete fullText];
         cancelled := isCancelled |}
  | Stop :: rest => consume true fullText done rest
  | Yield chunk :: rest =>
      if isCancelled then
        {| result := inr fullText; calls := done; cancelled := isCancelled |}
      else
        match textOf chunk with
        | inl error =>
            (* thrown inside [try]; the flag was read as false just before *)
            {| result := inl error; calls := done; cancelled := isCancelled |}
        | inr text =>
            if truthy text
            then consume isCancelled (fullText +:+ text) (done ++ [onToken text]) rest
            else consume isCancelled fullText done rest
        end
  | Raise error :: _ =>
      if isCancelled then
        {| result := inr fullText; calls := done; cancelled := isCancelled |}
      else
        {| result := inl error; calls := done; cancelled := isCancelled |}
  end.

(** The stream is opened before the [try] (Anthropic, OpenAI): a failure
    to open it is thrown whatever the flag says. *)
Definition openThenConsume (response : Response C) : Outcome :=
  match response with
  | Rejected stopped error => {| result := inl error; calls := []; cancelled := stopped |}
  | Opened events => consume false "" [] events
  end.

(** The stream is opened inside the [try] (Google, Cohere, Mistral). *)
Definition consumeGuarded (response : Response C) : Outcome :=
  match response with
  | Rejected stopped error =>
      {| result := if stopped then inr "" else inl error; calls := []; cancelled := stopped |}
  | Opened events => consume false "" [] events
  end.

End Loop.

Definition throws (error : Exn) : Outcome :=
  {| result := inl error; calls := []; cancelled := false |}.

(** ** The adapters and [chat] *)

Record Sdk := {
  sdk_new : SdkNew;
  anthropic_create : Handle -> Request -> Response AnthropicChunk;
  openai_create : Handle -> Request -> Response OpenAIChunk;
  google_sendMessageStream : Handle -> Request -> Response GoogleChunk;
  cohere_chatStream : Handle -> Request -> Response CohereChunk;
  mistral_stream : Handle -> Request -> Response MistralChunk
}.

Section Adapters.
Context (host : Host) (sdk : Sdk).

(** Every adapter starts with [this.isCancelled = false]; the flag the
    loop starts from is therefore [false]. *)
Definition anthropicChat (this : AIClient) (messages : list AIMessage) : Outcome :=
  match anthropicClient this with
  | None => throws (JsError "Anthropic client not initialized")
  | Some h => openThenConsume anthropicText
                (anthropic_create sdk h (anthropicRequest host this messages))
  end.

Definition openaiChat (this : AIClient) (messages : list AIMessage) : Outcome :=
  match openaiClient this with
  | None => throws (JsError "OpenAI client not initialized")
  | Some h => openThenConsume openaiText
                (openai_create sdk h (openaiRequest host this messages))
  end.

Definition googleChat (this : AIClient) (messages : list AIMessage) : Outcome :=
  match googleClient this, googleFileManager this with
  | Some h, Some _ =>
      let request := googleRequest host this messages in
      match req_prompt request with
      | None =>
          (* [lastMessage] is undefined: reading [.parts] throws inside [try] *)
          throws (JsError "Cannot read properties of undefined (reading 'parts')")
      | Some _ => consumeGuarded googleText (google_sendMessageStream sdk h request)
      end
  | _, _ => throws (JsError "Google client not initialized")
  end.

Definition cohereChat (this : AIClient) (messages : list AIMessage) : Outcome :=
  match cohereClient this with
  | None => throws (JsError "Cohere client not initialized")
  | Some h => consumeGuarded cohereText
                (cohere_chatStream sdk h (cohereRequest host this messages))
  end.

Definition mistralChat (this : AIClient) (messages : list AIMessage) : Outcome :=
  match mistralClient this with
  | None => throws (JsError "Mistral client not initialized")
  | Some h => consumeGuarded mistralText
                (mistral_stream sdk h (mistralRequest host this messages))
  end.

(** [vscode.OutputChannel]: the lines appended and whether it was shown. *)
Record OutputChannel := { channel_lines : list string; channel_shown : bool }.

Definition newline : string := String (ascii_of_nat 10) EmptyString.

(** [error instanceof Error ? error.message : 'Unknown error occurred'] *)
Definition errorMessage (error : Exn) : string :=
  match error with
  | JsError m => m
  | _ => "Unknown error occurred"
  end.

(** The [catch] block of [chat] (lines 102-107). *)
Definition reportError (outputChannel : OutputChannel) (error : Exn) : OutputChannel :=
  {| channel_lines :=
       channel_lines outputChannel ++
       [newline +:+ newline +:+ "Mode Client Error: " +:+ errorMessage error];
     channel_shown := true |}.

(** [chat] (lines 84-108).  The adapters are [async] and their promise
    is returned without [await], so the [catch] block sees only what is
    thrown before an adapter is entered: the [default] case. *)
Definition chat (this : AIClient) (outputChannel : OutputChannel)
           (messages : list AIMessage) : Outcome * OutputChannel :=
  let filteredMessages := filterDiagnosticMessages messages in
  if String.eqb (provider this) "anthropic" then
    (anthropicChat this filteredMessages, outputChannel)
  else if String.eqb (provider this) "openai" then
    (openaiChat this filteredMessages, outputChannel)
  else if String.eqb (provider this) "google" then
    (googleChat this filteredMessages, outputChannel)
  else if String.eqb (provider this) "cohere" then
    (cohereChat this filteredMessages, outputChannel)
  else if String.eqb (provider this) "mistral" then
    (mistralChat this filteredMessages, outputChannel)
  else
    let error := JsError ("Unsupported provider: " +:+ provider this) in
    ({| result := inl error; calls := []; cancelled := isCancelled this |},
     reportError outputChannel error).

End Adapters.

(** ** Client registry ([aiClientFactory.ts]) *)

(** [getApiKey] of the key manager, awaited: the promise is rejected, or
    it resolves with a secret or with nothing. *)
Definition ApiKeyManager := string -> Exn + option string.

(** [AIModel.getModelInfo]: the model's metadata, of which the factory
    reads the endpoint. *)
Record ModelInfo := { endpoint : option string }.

(** The static fields of the factory.  An instance is an object: the map
    holds references into [objects], the clients built so far in the
    order of their construction. *)
Record Factory := {
  instances : gmap string nat;
  apiKeyManager : option ApiKeyManager;
  objects : list AIClient
}.

Definition emptyFactory : Factory :=
  {| instances := ∅; apiKeyManager := None; objects := [] |}.

(** [initialize(context)]; the manager built from the context is given. *)
Definition initialize (manager : ApiKeyManager) (f : Factory) : Factory :=
  {| instances := instances f; apiKeyManager := Some manager; objects := objects f |}.

(** [`${provider}-${model || 'default'}`] *)
Definition instanceKey (provider model : string) : string :=
  provider +:+ "-" +:+ orElse model "default".

Record CreateResult := {
  success : bool;
  message : option string;
  client : option nat
}.

Definition found (ref : nat) : CreateResult :=
  {| success := true; message := None; client := Some ref |}.

Definition failed (msg : string) : CreateResult :=
  {| success := false; message := Some msg; client := None |}.

Section Registry.
Context (sdkNew : SdkNew) (getModelInfo : string -> option ModelInfo).

(** [await this.apiKeyManager?.getApiKey(provider)] *)
Definition getApiKey (f : Factory) (provider : string) : Exn + option string :=
  match apiKeyManager f with
  | Some manager => manager provider
  | None => inr None
  end.

(** [!apiKey] *)
Definition missing (apiKey : option string) : bool :=
  match apiKey with
  | Some k => negb (truthy k)
  | None => true
  end.

(** [createClient] (lines 16-61).  The promise is rejected ([inl]) by
    what is thrown outside the [try]: the awaited key manager and the read
    of [modelInfo!.endpoint]; and by what the [catch] block itself throws
    when it reads the message of the error. *)
Definition createClient (provider model : string) (f : Factory)
  : (Exn + CreateResult) * Factory :=
  let instanceKey := instanceKey provider model in
  match instances f !! instanceKey with
  | Some existingClient => (inr (found existingClient), f)
  | None =>
      match (if negb (String.eqb provider "ollama") then getApiKey f provider
             else inr None) with
      | inl rejection => (inl rejection, f)
      | inr apiKey =>
          if negb (String.eqb provider "ollama") && missing apiKey then
            (inr (failed ("APIKey." +:+ provider +:+ ".Missing")), f)
          else
            match getModelInfo model with
            | None =>
                (inl (JsError "Cannot read properties of undefined (reading 'endpoint')"), f)
            | Some modelInfo =>
                let config :=
                  {| cfg_provider := provider; cfg_apiKey := apiKey;
                     cfg_model := Some model; cfg_endpoint := endpoint modelInfo |} in
                match newAIClient sdkNew config with
                | inr client =>
                    let ref := length (objects f) in
                    (inr (found ref),
                     {| instances := <[instanceKey := ref]> (instances f);
                        apiKeyManager := apiKeyManager f;
                        objects := objects f ++ [client] |})
                | inl error =>
                    match message_of error with
                    | inr text =>
                        (inr (failed ("Failed to initialize " +:+ provider +:+ " client: "
                                      +:+ text)), f)
                    | inl typeError => (inl typeError, f)
                    end
                end
            end
      end
  end.

End Registry.

(** [getInstance] (lines 63-66) *)
Definition getInstance (provider : string) (model : option string) (f : Factory) : option nat :=
  instances f !! (provider +:+ "-" +:+ modelOr model "default").

(** One turn of the loop of [invalidateClientsForProvider]. *)
Definition invalidateStep (provider : string) (m : gmap string nat) (key : string)
  : gmap string nat :=
  if startsWith key (provider +:+ "-") then delete key m else m.

(** [invalidateClientsForProvider] (lines 68-75): the loop visits the keys
    of the map and deletes from the map it iterates. *)
Definition invalidateClientsForProvider (provider : string) (f : Factory) : Factory :=
  {| instances :=
       foldl (invalidateStep provider) (instances f) (fst <$> map_to_list (instances f));
     apiKeyManager := apiKeyManager f;
     objects := objects f |}.

(** The client an entry of the cache refers to. *)
Definition cached (f : Factory) (key : string) : option AIClient :=
  match instances f !! key with
  | Some ref => objects f !! ref
  | None => None
  end.

(** Every entry was stored by [createClient]: it refers to a constructed
    client, under the key made of that client's provider and of a model. *)
Definition wellFormed (f : Factory) : Prop :=
  forall key ref, instances f !! key = Some ref ->
    exists c model, objects f !! ref = Some c /\ key = instanceKey (provider c) model.

Definition hyphenFree (s : string) : Prop := occurs "-"%char s = false.

(** A run of [createClient] calls, one after the other. *)
Definition createClients (sdkNew : SdkNew) (getModelInfo : string -> option ModelInfo)
           (requests : list (string * string)) (f : Factory) : Factory :=
  foldl (fun f request => (createClient sdkNew getModelInfo request.1 request.2 f).2)
        f requests.

(** A registry for the examples: every model is known, the manager holds
    the keys [keys]. *)
Definition anyModel : string -> option ModelInfo :=
  fun _ => Some {| endpoint := None |}.

Definition factoryWith (keys : string -> option string) : Factory :=
  initialize (fun provider => inr (keys provider)) emptyFactory.

(** ** Chat orchestrator ([chat.manager.ts]) *)

(** The manager talks to its client through [chat(messages, callbacks)];
    what the client does with a message list is given by the callbacks it
    invokes and by how its promise settles. *)
Definition ChatFn := list AIMessage -> Outcome.

(** [try { body } catch (error) { handler }] *)
Definition tryCatch {A : Type} (body : Exn + A) (handler : Exn -> Exn + A) : Exn + A :=
  match body with
  | inr v => inr v
  | inl error => handler error
  end.

(** The callbacks of [generateSessionOverview] acting on its local
    variable [overview]: [onToken] does nothing, [onComplete] stores the
    full text. *)
Definition overviewAfter (done : list Callback) : string :=
  foldl (fun overview c =>
           match c with
           | onToken _ => overview
           | onComplete fullText => fullText
           end) "" done.

(** What the factory of the manager answers: the result object, with the
    client it holds. *)
Record Created := {
  created_success : bool;
  created_message : option string;
  created_client : option ChatFn
}.

(** The collaborators of the manager that are outside these sources. *)
Record Collaborators := {
  SESSION_SUMMARY_PROMPT : string;
  createClientFor : string -> Exn + Created;         (* model info, key and factory *)
  getBaseSystemPrompt : string -> string;
  getChatPromptOverride : string;
  isChatPrePromptDisabled : bool;
  isPromptOverrideEmpty : bool;
  getChatAdditionalPrompt : string;
  isChatAdditionalPromptEmpty : bool;
  handleMessage : option ChatFn -> list AIMessage -> string -> Exn + list AIMessage
}.

Inductive WebviewMessage :=
| addChatError (message : option string).

Record ChatManager := {
  aiClient : option ChatFn;
  currentModel : string;
  session_messages : list AIMessage;
  session_overview : string;
  saved : nat;                         (* calls of [saveSessions] *)
  posted : list WebviewMessage
}.

Section Orchestrator.
Context (co : Collaborators).

(** The messages of the summary call (lines 140-143). *)
Definition overviewMessages (message : string) : list AIMessage :=
  [ {| role := system; content := Text (SESSION_SUMMARY_PROMPT co); name := None; type := None |};
    {| role := user; content := Text message; name := None; type := None |} ].

(** [generateSessionOverview] (lines 133-153) *)
Definition generateSessionOverview (this : ChatManager) (message : string) : Exn + string :=
  match aiClient this with
  | None => inr "New Chat"
  | Some client =>
      tryCatch
        (let outcome := client (overviewMessages message) in
         match result outcome with
         | inl error => inl error
         | inr _ => inr (orElse (overviewAfter (calls outcome)) "New Chat")
         end)
        (fun _ => inr "New Chat")
  end.

(** [initializeClient] (lines 45-58) *)
Definition initializeClient (this : ChatManager) (selectedModel : string)
  : Exn + (bool * option string * ChatManager) :=
  if negb (String.eqb (currentModel this) selectedModel) || negb (bool_decide (is_Some (aiClient this)))
  then
    match createClientFor co selectedModel with
    | inl error => inl error
    | inr res =>
        let this' :=
          match created_client res with
          | Some c =>
              if created_success res then
                {| aiClient := Some c; currentModel := selectedModel;
                   session_messages := session_messages this;
                   session_overview := session_overview this;
                   saved := saved this; posted := posted this |}
              else this
          | None => this
          end in
        inr (created_success res, created_message res, this')
    end
  else inr (true, None, this).

(** [hasSystemPrompt] (lines 60-63) *)
Definition hasSystemPrompt (this : ChatManager) : bool :=
  existsb (fun msg => bool_decide (role msg = system)) (session_messages this).

(** [initializeSystemPrompt] (lines 72-88) *)
Definition initializeSystemPrompt (this : ChatManager) (selectedModel : string) : ChatManager :=
  let disableSystemPrompt := isChatPrePromptDisabled co && isPromptOverrideEmpty co in
  let systemPrompt :=
    if disableSystemPrompt then ""
    else orElse (getChatPromptOverride co) (getBaseSystemPrompt co selectedModel) in
  let systemPrompt :=
    if negb (isChatAdditionalPromptEmpty co)
    then systemPrompt +:+ " " +:+ getChatAdditionalPrompt co
    else systemPrompt in
  if negb disableSystemPrompt then
    {| aiClient := aiClient this; currentModel := currentModel this;
       session_messages :=
         session_messages this ++
         [ {| role := system; content := Text systemPrompt; name := None; type := None |} ];
       session_overview := session_overview this;
       saved := saved this; posted := posted this |}
  else this.

(** [sendMessage] (lines 90-131).  The promise of the overview is not
    awaited: the method has settled before the overview is stored, and a
    rejection of that promise would reach nobody. *)
Definition sendMessage (this : ChatManager) (message selectedModel : string)
  : (Exn + unit) * ChatManager :=
  match initializeClient this selectedModel with
  | inl error => (inl error, this)
  | inr (false, initMessage, this1) =>
      (inr tt,
       {| aiClient := aiClient this1; currentModel := currentModel this1;
          session_messages := session_messages this1;
          session_overview := session_overview this1;
          saved := saved this1; posted := posted this1 ++ [addChatError initMessage] |})
  | inr (true, _, this1) =>
      let this2 :=
        if negb (hasSystemPrompt this1) then initializeSystemPrompt this1 selectedModel
        else this1 in
      match handleMessage co (aiClient this2) (session_messages this2) message with
      | inl error => (inl error, this2)
      | inr messages' =>
          let this3 :=
            {| aiClient := aiClient this2; currentModel := currentModel this2;
               session_messages := messages';
               session_overview := session_overview this2;
               saved := S (saved this2); posted := posted this2 |} in
          (inr tt,
           match generateSessionOverview this3 message with
           | inr overview =>
               {| aiClient := aiClient this3; currentModel := currentModel this3;
                  session_messages := session_messages this3;
                  session_overview := overview;
                  saved := saved this3; posted := posted this3 |}
           | inl _ => this3
           end)
      end
  end.

End Orchestrator.

(** ** Vocabulary of the properties *)

(** *** Streams in flight *)

Section Traces.
Context {C : Type} (textOf : C -> Exn + string).

(** The fragments the loop hands to [onToken] while it reads [events]
    with the flag down. *)
Fixpoint delivered (events : list (Event C)) : list string :=
  match events with
  | Yield chunk :: rest =>
      match textOf chunk with
      | inr text => if truthy text then text :: delivered rest else delivered rest
      | inl _ => delivered rest
      end
  | _ :: rest => delivered rest
  | [] => []
  end.

(** A stretch of a stream in which nothing but chunks arrive, each of a
    shape its adapter reads without failing. *)
Definition readable (e : Event C) : Prop :=
  match e with
  | Yield chunk => exists text, textOf chunk = inr text
  | _ => False
  end.

Definition undisturbed (events : list (Event C)) : Prop := Forall readable events.

End Traces.

(** The stream is not exhausted: a chunk, or an error, is still to come. *)
Definition pending {C : Type} (events : list (Event C)) : Prop :=
  exists e, e ∈ events /\ e <> Stop.

(** Concatenation of fragments. *)
Definition joined (fragments : list string) : string :=
  foldr String.append "" fragments.

(** [Streaming host sdk this messages textOf events]: the call
    [chat(_, messages, _)] on [this] reaches a backend, which opens a
    stream over which [events] happen; [textOf] is how the adapter of
    that backend reads a chunk. *)
Inductive Streaming (host : Host) (sdk : Sdk) (this : AIClient) (messages : list AIMessage)
  : forall C : Type, (C -> Exn + string) -> list (Event C) -> Prop :=
| streaming_anthropic h events :
    provider this = "anthropic" -> anthropicClient this = Some h ->
    anthropic_create sdk h (anthropicRequest host this (filterDiagnosticMessages messages))
      = Opened events ->
    Streaming host sdk this messages AnthropicChunk anthropicText events
| streaming_openai h events :
    provider this = "openai" -> openaiClient this = Some h ->
    openai_create sdk h (openaiRequest host this (filterDiagnosticMessages messages))
      = Opened events ->
    Streaming host sdk this messages OpenAIChunk openaiText events
| streaming_google h fm events :
    provider this = "google" -> googleClient this = Some h ->
    googleFileManager this = Some fm ->
    is_Some (req_prompt (googleRequest host this (filterDiagnosticMessages messages))) ->
    google_sendMessageStream sdk h (googleRequest host this (filterDiagnosticMessages messages))
      = Opened events ->
    Streaming host sdk this messages GoogleChunk googleText events
| streaming_cohere h events :
    provider this = "cohere" -> cohereClient this = Some h ->
    cohere_chatStream sdk h (cohereRequest host this (filterDiagnosticMessages messages))
      = Opened events ->
    Streaming host sdk this messages CohereChunk cohereText events
| streaming_mistral h events :
    provider this = "mistral" -> mistralClient this = Some h ->
    mistral_stream sdk h (mistralRequest host this (filterDiagnosticMessages messages))
      = Opened events ->
    Streaming host sdk this messages MistralChunk mistralText events.

(** *** Providers *)

Definition recognized : list string :=
  ["anthropic"; "openai"; "google"; "cohere"; "mistral"].

(** *** Images *)

(** The media types that occur in a formatted image. *)
Definition mediaTypes (f : Formatted) : list string :=
  match f with
  | Blocks blocks =>
      omap (fun b =>
              match b with
              | image_block _ media_type _ => Some media_type
              | inline_data _ mimeType => Some mimeType
              | _ => None
              end) blocks
  | Plain _ => []
  end.

(** The prefix of a data URL: what precedes the comma and the payload. *)
Definition dataUrlPrefix (url : string) : string := before ","%char url.

(** The detection rule in the words of the specification: png if the
    prefix of the data URL contains [image/png], else jpeg. *)
Definition detectedByContainment (url : string) : string :=
  if includes (dataUrlPrefix url) "image/png" then "image/png" else "image/jpeg".



(** A sample host, SDK and client for the examples below. *)
Definition sampleHost : Host :=
  {| JSON_stringify := fun _ => "[]"; temperature := "0.7" |}.

Definition sampleNew : SdkNew :=
  fun class key => inr {| handle_class := class; handle_key := key |}.

Definition textDelta (s : string) : Event AnthropicChunk :=
  Yield {| chunk_type := "content_block_delta";
           chunk_delta := Some {| delta_type := "text_delta"; delta_text := s |} |}.

Definition messageStop : Event AnthropicChunk :=
  Yield {| chunk_type := "message_stop"; chunk_delta := None |}.

Definition sampleSdk (events : list (Event AnthropicChunk)) : Sdk :=
  {| sdk_new := sampleNew;
     anthropic_create := fun _ _ => Opened events;
     openai_create := fun _ _ => Opened [];
     google_sendMessageStream := fun _ _ => Opened [];
     cohere_chatStream := fun _ _ => Opened [];
     mistral_stream := fun _ _ => Opened [] |}.

Definition sampleClient : AIClient :=
  {| anthropicClient := Some {| handle_class := "Anthropic"; handle_key := Some "sk" |};
     openaiClient := None; googleClient := None; cohereClient := None;
     mistralClient := None; provider := "anthropic"; model := Some "claude";
     isCancelled := false; googleFileManager := None |}.

Definition sampleMistral : AIClient :=
  {| anthropicClient := None; openaiClient := None; googleClient := None;
     cohereClient := None;
     mistralClient := Some {| handle_class := "Mistral"; handle_key := Some "k" |};
     provider := "mistral"; model := Some "mistral-medium";
     isCancelled := false; googleFileManager := None |}.

Definition sampleChannel : OutputChannel :=
  {| channel_lines := []; channel_shown := false |}.

(** A client whose every call fails, and collaborators around it. *)
Definition failingClient : ChatFn :=
  fun _ => throws (JsError "rate limited").

Definition sampleCollaborators : Collaborators :=
  {| SESSION_SUMMARY_PROMPT := "Summarize this exchange.";
     createClientFor := fun _ =>
       inr {| created_success := true; created_message := None;
              created_client := Some failingClient |};
     getBaseSystemPrompt := fun _ => "You are Mode.";
     getChatPromptOverride := "";
     isChatPrePromptDisabled := false;
     isPromptOverrideEmpty := true;
     getChatAdditionalPrompt := "";
     isChatAdditionalPromptEmpty := true;
     handleMessage := fun _ messages message =>
       inr (messages ++
            [ {| role := user; content := Text message; name := None; type := None |};
              {| role := assistant; content := Text "Hello!";
                 name := Some "Mode.ChatResponse"; type := None |} ])%list |}.

Definition newManager : ChatManager :=
  {| aiClient := None; currentModel := ""; session_messages := [];
     session_overview := ""; saved := 0; posted := [] |}.

Definition hi : AIMessage :=
  {| role := user; content := Text "hi"; name := None; type := None |}.

Definition picture : AIMessage :=
  {| role := user; content := Text "data:image/png;base64,AAAA"; name := None;
     type := Some image |}.

(** ** Further vocabulary *)

(** *** Callbacks of one call *)

(** The callbacks of a call are well shaped for the fragments [tokens]:
    one [onToken] per fragment, then at most one [onComplete], which
    carries the text the call returns. *)
Definition wellShaped (tokens : list string) (out : Outcome) : Prop :=
  calls out = onToken <$> tokens \/
  (calls out = ((onToken <$> tokens) ++ [onComplete (joined tokens)])%list /\
   result out = inr (joined tokens)).

(** [Refused host sdk this messages guarded stopped error]: the call
    [chat(_, messages, _)] on [this] reaches a backend, which fails to
    open the stream with [error]; [guarded] tells whether the adapter
    opens the stream inside its [try] block. *)
Inductive Refused (host : Host) (sdk : Sdk) (this : AIClient) (messages : list AIMessage)
  : bool -> bool -> Exn -> Prop :=
| refused_anthropic h stopped error :
    provider this = "anthropic" -> anthropicClient this = Some h ->
    anthropic_create sdk h (anthropicRequest host this (filterDiagnosticMessages messages))
      = Rejected stopped error ->
    Refused host sdk this messages false stopped error
| refused_openai h stopped error :
    provider this = "openai" -> openaiClient this = Some h ->
    openai_create sdk h (openaiRequest host this (filterDiagnosticMessages messages))
      = Rejected stopped error ->
    Refused host sdk this messages false stopped error
| refused_google h fm stopped error :
    provider this = "google" -> googleClient this = Some h ->
    googleFileManager this = Some fm ->
    is_Some (req_prompt (googleRequest host this (filterDiagnosticMessages messages))) ->
    google_sendMessageStream sdk h (googleRequest host this (filterDiagnosticMessages messages))
      = Rejected stopped error ->
    Refused host sdk this messages true stopped error
| refused_cohere h stopped error :
    provider this = "cohere" -> cohereClient this = Some h ->
    cohere_chatStream sdk h (cohereRequest host this (filterDiagnosticMessages messages))
      = Rejected stopped error ->
    Refused host sdk this messages true stopped error
| refused_mistral h stopped error :
    provider this = "mistral" -> mistralClient this = Some h ->
    mistral_stream sdk h (mistralRequest host this (filterDiagnosticMessages messages))
      = Rejected stopped error ->
    Refused host sdk this messages true stopped error.

(** The handle the adapter of the client's provider works with. *)
Definition backendHandle (c : AIClient) : option Handle :=
  if String.eqb (provider c) "anthropic" then anthropicClient c
  else if String.eqb (provider c) "openai" then openaiClient c
  else if String.eqb (provider c) "google" then googleClient c
  else if String.eqb (provider c) "cohere" then cohereClient c
  else if String.eqb (provider c) "mistral" then mistralClient c
  else None.

Definition isSystem (msg : AIMessage) : Prop := role msg = system.

(** *** Runs of the registry *)

Inductive RegistryOp :=
| OpInitialize (manager : ApiKeyManager)
| OpCreate (provider model : string)
| OpInvalidate (provider : string).

Definition applyOp (sdkNew : SdkNew) (getModelInfo : string -> option ModelInfo)
           (f : Factory) (op : RegistryOp) : Factory :=
  match op with
  | OpInitialize manager => initialize manager f
  | OpCreate provider model => (createClient sdkNew getModelInfo provider model f).2
  | OpInvalidate provider => invalidateClientsForProvider provider f
  end.

Definition runOps (sdkNew : SdkNew) (getModelInfo : string -> option ModelInfo)
           (ops : list RegistryOp) (f : Factory) : Factory :=
  foldl (applyOp sdkNew getModelInfo) f ops.

(** The credential step of [createClient] lets the call through: the
    provider is [ollama], or the manager holds a non-empty key. *)
Definition credentialed (f : Factory) (provider : string) : Prop :=
  provider = "ollama" \/ exists k, getApiKey f provider = inr (Some k) /\ truthy k = true.

(** The key [createClient] goes on with, and the configuration it hands
    to the constructor of the client (lines 28-50). *)
Definition resolvedKey (f : Factory) (provider : string) : option string :=
  if negb (String.eqb provider "ollama") then
    match getApiKey f provider with
    | inr apiKey => apiKey
    | inl _ => None
    end
  else None.

Definition configOf (f : Factory) (provider model : string) (info : ModelInfo)
  : AIClientConfig :=
  {| cfg_provider := provider; cfg_apiKey := resolvedKey f provider;
     cfg_model := Some model; cfg_endpoint := endpoint info |}.

(** *** The session before the primary exchange *)

(** What [sendMessage] does to the session between the initialization of
    the client and the call of the handler (lines 113-116). *)
Definition withSystemPrompt (co : Collaborators) (this : ChatManager) (selectedModel : string)
  : ChatManager :=
  if negb (hasSystemPrompt this) then initializeSystemPrompt co this selectedModel else this.

(** *** More samples *)

Definition sdkWith (a : Response AnthropicChunk) (m : Response MistralChunk) : Sdk :=
  {| sdk_new := sampleNew;
     anthropic_create := fun _ _ => a;
     openai_create := fun _ _ => Opened [];
     google_sendMessageStream := fun _ _ => Opened [];
     cohere_chatStream := fun _ _ => Opened [];
     mistral_stream := fun _ _ => m |}.

Definition mistralDelta (s : string) : Event MistralChunk :=
  Yield {| mistral_choices := [ {| mistral_delta_content := mistral_string s |} ] |}.

Definition mistralEmpty : MistralChunk := {| mistral_choices := [] |}.

Definition sampleGoogle : AIClient :=
  {| anthropicClient := None; openaiClient := None;
     googleClient := Some {| handle_class := "GoogleGenerativeAI"; handle_key := Some "k" |};
     cohereClient := None; mistralClient := None; provider := "google";
     model := Some "gemini-pro"; isCancelled := false;
     googleFileManager := Some {| handle_class := "GoogleAIFileManager"; handle_key := Some "k" |} |}.

(** An SDK whose constructors refuse every configuration. *)
Definition refusingNew : SdkNew :=
  fun _ _ => inl (JsError "Missing credentials").

Definition noModel : string -> option ModelInfo := fun _ => None.

(** Collaborators whose factory has no key, and collaborators whose
    handler fails. *)
Definition keylessCollaborators : Collaborators :=
  {| SESSION_SUMMARY_PROMPT := "Summarize this exchange.";
     createClientFor := fun _ =>
       inr {| created_success := false;
              created_message := Some "APIKey.openai.Missing";
              created_client := None |};
     getBaseSystemPrompt := getBaseSystemPrompt sampleCollaborators;
     getChatPromptOverride := "";
     isChatPrePromptDisabled := false;
     isPromptOverrideEmpty := true;
     getChatAdditionalPrompt := "";
     isChatAdditionalPromptEmpty := true;
     handleMessage := handleMessage sampleCollaborators |}.

Definition hangingCollaborators : Collaborators :=
  {| SESSION_SUMMARY_PROMPT := "Summarize this exchange.";
     createClientFor := createClientFor sampleCollaborators;
     getBaseSystemPrompt := getBaseSystemPrompt sampleCollaborators;
     getChatPromptOverride := "";
     isChatPrePromptDisabled := false;
     isPromptOverrideEmpty := true;
     getChatAdditionalPrompt := "";
     isChatAdditionalPromptEmpty := true;
     handleMessage := fun _ _ _ => inl (JsError "socket hang up") |}.

Definition diagnosticNote : AIMessage :=
  {| role := assistant; content := Text "Mode.ChatResponse"; name := None; type := None |}.

Definition systemNote (s : string) : AIMessage :=
  {| role := system; content := Text s; name := None; type := None |}.

(** * Properties *)

(** ** Strings *)

Lemma append_cons (x : ascii) (a b : string) : String x a +:+ b = String x (a +:+ b).
Proof. reflexivity. Qed.

Lemma append_nil_l (a : string) : "" +:+ a = a.
Proof. reflexivity. Qed.

Lemma startsWith_app (p s : string) : startsWith (p +:+ s) p = true.
Proof.
  induction p as [|a p IH]; [reflexivity|].
  rewrite append_cons. simpl. rewrite Ascii.eqb_refl. exact IH.
Qed.

Lemma startsWith_inv (s p : string) :
  startsWith s p = true -> exists rest, s = p +:+ rest.
Proof.
  revert s. induction p as [|a p IH]; intros s H; simpl in H.
  - exists s. reflexivity.
  - destruct s as [|b s]; [discriminate|].
    destruct (Ascii.eqb a b) eqn:E; [|discriminate].
    apply Ascii.eqb_eq in E. subst b.
    destruct (IH _ H) as [rest ->]. exists rest. reflexivity.
Qed.

Lemma append_assoc (a b c : string) : (a +:+ b) +:+ c = a +:+ (b +:+ c).
Proof.
  induction a as [|x a IH]; [reflexivity|].
  rewrite !append_cons. f_equal. exact IH.
Qed.

Lemma append_nil_r (a : string) : a +:+ "" = a.
Proof.
  induction a as [|x a IH]; [reflexivity|].
  rewrite append_cons. f_equal. exact IH.
Qed.

(** A key made of a hyphen-free provider starts with [p-] only for that
    provider. *)
Lemma hyphenFree_prefix (p q m : string) :
  hyphenFree p -> hyphenFree q ->
  startsWith (q +:+ "-" +:+ m) (p +:+ "-") = true -> p = q.
Proof.
  unfold hyphenFree. revert q.
  induction p as [|a p IH]; intros q Hp Hq H.
  - destruct q as [|b q]; [reflexivity|].
    rewrite append_nil_l, append_cons in H.
    cbn [startsWith occurs] in H, Hq. apply orb_false_elim in Hq as [Hb _].
    rewrite Hb in H. discriminate.
  - cbn [occurs] in Hp. apply orb_false_elim in Hp as [Ha Hp].
    destruct q as [|b q].
    + rewrite append_nil_l, !append_cons in H. cbn [startsWith] in H.
      rewrite Ascii.eqb_sym in Ha. rewrite Ha in H. discriminate.
    + rewrite !append_cons in H. cbn [startsWith] in H.
      destruct (Ascii.eqb a b) eqn:E; [|discriminate].
      apply Ascii.eqb_eq in E. subst b.
      cbn [occurs] in Hq. apply orb_false_elim in Hq as [_ Hq].
      f_equal. apply IH; assumption.
Qed.

(** ** Message normalizer *)

Lemma keepMessage_false (m : AIMessage) : keepMessage m = false <-> Diagnostic m.
Proof.
  unfold keepMessage. split.
  - destruct (content m) as [s|items] eqn:Hc; intros H; apply negb_false_iff in H.
    + eapply diag_string; eassumption.
    + apply existsb_exists in H as ([s|o] & Hin & Hitem);
        cbn [itemStartsWithSentinel] in Hitem.
      * eapply diag_raw_element; eassumption.
      * apply andb_true_iff in Hitem as [Hty Htx].
        apply bool_decide_eq_true in Hty.
        destruct (part_text o) as [t|] eqn:Ht; [|discriminate].
        eapply diag_text_part; eassumption.
  - intros [s Hc Hs | items o t Hc Hin Hty Ht Hs | items s Hc Hin Hs]; rewrite Hc.
    + now rewrite Hs.
    + apply negb_false_iff, existsb_exists. exists (Structured o). split; [assumption|].
      cbn [itemStartsWithSentinel]. rewrite Ht, Hs, bool_decide_eq_true_2 by assumption.
      reflexivity.
    + apply negb_false_iff, existsb_exists. exists (RawString s). now split.
Qed.

Lemma keepMessage_true (m : AIMessage) : keepMessage m = true <-> ~ Diagnostic m.
Proof.
  rewrite <- keepMessage_false. destruct (keepMessage m); split; congruence.
Qed.

(** C2. [filterDiagnosticMessages] takes out exactly the messages whose
    string content starts with ["Mode."] or whose array content has a
    text-typed part, or a raw string element, starting with it; every other
    message is kept as it is, and the kept messages stay in their order. *)
Theorem filterDiagnostic_exact (messages : list AIMessage) :
  Survivors messages (filterDiagnosticMessages messages) /\
  (forall m, In m (filterDiagnosticMessages messages) <-> In m messages /\ ~ Diagnostic m) /\
  sublist (filterDiagnosticMessages messages) messages.
Proof.
  unfold filterDiagnosticMessages. split; [|split].
  - induction messages as [|m ms IH]; simpl; [constructor|].
    destruct (keepMessage m) eqn:K.
    + apply surv_keep; [now apply keepMessage_true | exact IH].
    + apply surv_drop; [now apply keepMessage_false | exact IH].
  - intros m. rewrite filter_In, keepMessage_true. reflexivity.
  - induction messages as [|m ms IH]; simpl; [constructor|].
    destruct (keepMessage m); [now apply sublist_skip | now apply sublist_cons].
Qed.

Example filterDiagnostic_sample :
  filterDiagnosticMessages
    [ hi;
      {| role := assistant; content := Text "Mode.ChatResponse"; name := None; type := None |};
      {| role := user;
         content := Parts [Structured {| part_type := Some "text";
                                         part_text := Some "Mode.x"; part_rest := [] |}];
         name := None; type := None |};
      picture ]
  = [hi; picture].
Proof. reflexivity. Qed.

(** ** Images *)

(** C7, as stated, fails: the prefix of this data URL contains
    [image/png], and the media type detected for it is [image/jpeg]. *)
Lemma detection_is_not_containment :
  includes (dataUrlPrefix "data:image/jpeg;name=image/png;base64,AAAA") "image/png" = true /\
  detectedByContainment "data:image/jpeg;name=image/png;base64,AAAA" = "image/png" /\
  mediaTypes (formatImageContent "anthropic" "data:image/jpeg;name=image/png;base64,AAAA")
  = ["image/jpeg"].
Proof. repeat split; vm_compute; reflexivity. Qed.

(** C7, amended.  For provider [anthropic] the data URL
    [data:image/png;base64,AAAA] becomes an image block of media type
    [image/png] with payload [AAAA] (the header stripped), followed by a
    descriptive text block; and for any data URL the detected media type is
    [image/png] exactly when the URL starts with [data:image/png], and
    [image/jpeg] otherwise. *)
Theorem formatImage_anthropic :
  formatImageContent "anthropic" "data:image/png;base64,AAAA"
  = Blocks [image_block "base64" "image/png" "AAAA"; text_block "Describe this image."] /\
  (forall url,
     (startsWith url "data:image/png" = true <->
      mediaTypes (formatImageContent "anthropic" url) = ["image/png"]) /\
     (startsWith url "data:image/png" = false <->
      mediaTypes (formatImageContent "anthropic" url) = ["image/jpeg"])).
Proof.
  split; [reflexivity|].
  intros url.
  change (mediaTypes (formatImageContent "anthropic" url)) with [detectMediaType url].
  unfold detectMediaType.
  destruct (startsWith url "data:image/png"); split; split; intros H;
    try reflexivity; discriminate.
Qed.

(** The filter of the adapters without vision keeps the messages that are
    not marked as image. *)
Lemma notImage_filter (messages : list AIMessage) :
  List.filter notImage messages = filter (fun m => type m <> Some image) messages.
Proof.
  induction messages as [|m ms IH]; [reflexivity|].
  cbn [List.filter]. rewrite filter_cons, IH. unfold notImage.
  destruct (decide (type m <> Some image)) as [Hne|Heq].
  - rewrite bool_decide_eq_false_2 by exact Hne. reflexivity.
  - rewrite bool_decide_eq_true_2; [reflexivity|].
    destruct (decide (type m = Some image)); [assumption | contradiction].
Qed.




(** ** The streaming loop *)

Section LoopFacts.
Context {C : Type} (textOf : C -> Exn + string).

(** Over a stretch in which only readable chunks arrive the loop
    accumulates the fragments and hands each of them to [onToken]. *)
Lemma consume_undisturbed (pre rest : list (Event C)) :
  undisturbed textOf pre ->
  forall fullText done,
    consume textOf false fullText done (pre ++ rest)
    = consume textOf false (fullText +:+ joined (delivered textOf pre))
        (done ++ (onToken <$> delivered textOf pre)) rest.
Proof.
  induction 1 as [|e pre He _ IH]; intros fullText done.
  - cbn. now rewrite append_nil_r, app_nil_r.
  - destruct e as [|chunk|error]; try contradiction.
    destruct He as [text Ht]. cbn [app consume delivered]. rewrite Ht.
    destruct (truthy text).
    + rewrite IH. cbn [joined foldr fmap list_fmap].
      rewrite append_assoc, <- app_assoc. reflexivity.
    + apply IH.
Qed.

(** With the flag up, the next chunk or error ends the call: the text
    accumulated so far is returned and [onComplete] is not called. *)
Lemma consume_cancelled (post : list (Event C)) (fullText : string) (done : list Callback) :
  pending post ->
  consume textOf true fullText done post
  = {| result := inr fullText; calls := done; cancelled := true |}.
Proof.
  induction post as [|e post IH]; intros (e' & Hin & Hne).
  - inversion Hin.
  - destruct e as [|chunk|error]; cbn [consume]; try reflexivity.
    apply IH. exists e'. split; [|assumption].
    apply elem_of_cons in Hin as [->|Hin]; [contradiction|assumption].
Qed.

(** With the flag up, the end of the stream still completes the call. *)
Lemma consume_cancelled_at_end (n : nat) (fullText : string) (done : list Callback) :
  consume textOf true fullText done (replicate n Stop)
  = {| result := inr fullText; calls := done ++ [onComplete fullText]; cancelled := true |}.
Proof. induction n as [|n IH]; [reflexivity | exact IH]. Qed.

Lemma consume_stops (n : nat) (rest : list (Event C)) (fullText : string)
      (done : list Callback) :
  consume textOf true fullText done (replicate n Stop ++ rest)
  = consume textOf true fullText done rest.
Proof. induction n as [|n IH]; [reflexivity | exact IH]. Qed.

End LoopFacts.

Lemma onComplete_not_among_tokens (fullText : string) (tokens : list string) :
  onComplete fullText ∉ onToken <$> tokens.
Proof.
  intros H. apply list_elem_of_fmap in H as (t & Heq & _). discriminate.
Qed.

(** [stopGeneration] raises the flag, and doing it twice changes nothing:
    this is what a [Stop] event does to the flag the loop reads. *)
Lemma stopGeneration_flag (this : AIClient) :
  isCancelled (stopGeneration this) = true /\
  stopGeneration (stopGeneration this) = stopGeneration this.
Proof. split; reflexivity. Qed.

(** A call of [chat] that reaches a stream is the loop run over it. *)
Lemma chat_streaming host sdk this channel messages C textOf (events : list (Event C)) :
  Streaming host sdk this messages C textOf events ->
  chat host sdk this channel messages = (consume textOf false "" [] events, channel).
Proof.
  intros H. destruct H as
    [h events Hp Hh Hs | h events Hp Hh Hs | h fm events Hp Hh Hfm Hpr Hs
    | h events Hp Hh Hs | h events Hp Hh Hs];
    unfold chat; rewrite Hp; cbn [String.eqb Ascii.eqb Bool.eqb].
  - unfold anthropicChat. now rewrite Hh, Hs.
  - unfold openaiChat. now rewrite Hh, Hs.
  - unfold googleChat. rewrite Hh, Hfm. cbv zeta.
    destruct Hpr as [p Hpr]. now rewrite Hpr, Hs.
  - unfold cohereChat. now rewrite Hh, Hs.
  - unfold mistralChat. now rewrite Hh, Hs.
Qed.

(** C1.  A call of [chat] is streaming; [stopGeneration] is invoked after
    the fragments of [pre] went to [onToken] (at least one, or any number
    of them) and before the stream is exhausted, a chunk or an error
    being still to come.  Then the call returns the concatenation of the
    fragments delivered before, and [onComplete] is not invoked. *)
Theorem cancel_midstream host sdk this channel messages C textOf
        (pre post : list (Event C)) :
  Streaming host sdk this messages C textOf (pre ++ Stop :: post) ->
  undisturbed textOf pre ->
  pending post ->
  let out := (chat host sdk this channel messages).1 in
  result out = inr (joined (delivered textOf pre)) /\
  calls out = onToken <$> delivered textOf pre /\
  (forall fullText, onComplete fullText ∉ calls out).
Proof.
  intros Hs Hpre Hpost.
  rewrite (chat_streaming _ _ _ _ _ _ _ _ Hs). cbn [fst].
  rewrite (consume_undisturbed textOf pre _ Hpre). cbn [consume].
  rewrite (consume_cancelled textOf post _ _ Hpost). cbn [result calls].
  rewrite append_nil_l, app_nil_l.
  repeat split. intros fullText. apply onComplete_not_among_tokens.
Qed.

Lemma cancel_midstream_witness :
  let events := [textDelta "Hel"; Stop; textDelta "lo"; messageStop] in
  let out := (chat sampleHost (sampleSdk events) sampleClient sampleChannel [hi]).1 in
  Streaming sampleHost (sampleSdk events) sampleClient [hi] AnthropicChunk anthropicText
    ([textDelta "Hel"] ++ Stop :: [textDelta "lo"; messageStop]) /\
  undisturbed anthropicText [textDelta "Hel"] /\
  pending [textDelta "lo"; messageStop] /\
  result out = inr "Hel" /\
  calls out = [onToken "Hel"] /\
  (forall fullText, onComplete fullText ∉ calls out).
Proof.
  assert (Hs : Streaming sampleHost
                 (sampleSdk [textDelta "Hel"; Stop; textDelta "lo"; messageStop])
                 sampleClient [hi] AnthropicChunk anthropicText
                 ([textDelta "Hel"] ++ Stop :: [textDelta "lo"; messageStop])).
  { eapply streaming_anthropic; reflexivity. }
  assert (Hu : undisturbed anthropicText [textDelta "Hel"]).
  { repeat constructor. eexists. reflexivity. }
  assert (Hp : pending [textDelta "lo"; messageStop]).
  { exists (textDelta "lo"). split; [left | discriminate]. }
  split; [exact Hs|]. split; [exact Hu|]. split; [exact Hp|].
  exact (cancel_midstream sampleHost _ sampleClient sampleChannel [hi] AnthropicChunk
           anthropicText [textDelta "Hel"] [textDelta "lo"; messageStop] Hs Hu Hp).
Defined.

(** The boundary of C1: a stop request that arrives when no chunk is left,
    while the adapter waits for the end of the stream, comes too late. *)
Remark cancel_after_last_chunk :
  (chat sampleHost (sampleSdk [textDelta "Hello"; Stop]) sampleClient sampleChannel [hi]).1
  = {| result := inr "Hello"; calls := [onToken "Hello"; onComplete "Hello"];
       cancelled := true |}.
Proof. reflexivity. Qed.

(** C6.  The stream raises [error] after the fragments of [pre].  If no
    stop was requested the call is rejected with that same error; if a
    stop was requested between the last chunk and the error, the call
    returns the text accumulated so far.  [onComplete] is invoked in
    neither case. *)
Theorem stream_error host sdk this channel messages C textOf
        (pre post : list (Event C)) (n : nat) (error : Exn) :
  Streaming host sdk this messages C textOf (pre ++ replicate n Stop ++ Raise error :: post) ->
  undisturbed textOf pre ->
  let out := (chat host sdk this channel messages).1 in
  (n = 0 -> result out = inl error) /\
  (0 < n -> result out = inr (joined (delivered textOf pre))) /\
  calls out = onToken <$> delivered textOf pre /\
  (forall fullText, onComplete fullText ∉ calls out).
Proof.
  intros Hs Hpre.
  rewrite (chat_streaming _ _ _ _ _ _ _ _ Hs). cbn [fst].
  rewrite (consume_undisturbed textOf pre _ Hpre).
  rewrite append_nil_l, app_nil_l.
  destruct n as [|n].
  - cbn [replicate app consume result calls].
    repeat split; [lia | intros; apply onComplete_not_among_tokens].
  - cbn [replicate app consume]. rewrite consume_stops. cbn [consume result calls].
    repeat split; [discriminate | intros; apply onComplete_not_among_tokens].
Qed.

Lemma stream_error_witness :
  let boom := JsError "socket hang up" in
  let events := [textDelta "Hel"; Stop; Raise boom] in
  let out := (chat sampleHost (sampleSdk events) sampleClient sampleChannel [hi]).1 in
  Streaming sampleHost (sampleSdk events) sampleClient [hi] AnthropicChunk anthropicText
    ([textDelta "Hel"] ++ replicate 1 Stop ++ Raise boom :: []) /\
  undisturbed anthropicText [textDelta "Hel"] /\
  (1 = 0 -> result out = inl boom) /\
  (0 < 1 -> result out = inr "Hel") /\
  calls out = [onToken "Hel"] /\
  (forall fullText, onComplete fullText ∉ calls out).
Proof.
  assert (Hs : Streaming sampleHost
                 (sampleSdk [textDelta "Hel"; Stop; Raise (JsError "socket hang up")])
                 sampleClient [hi] AnthropicChunk anthropicText
                 ([textDelta "Hel"] ++ replicate 1 Stop
                    ++ Raise (JsError "socket hang up") :: [])).
  { eapply streaming_anthropic; reflexivity. }
  assert (Hu : undisturbed anthropicText [textDelta "Hel"]).
  { repeat constructor. eexists. reflexivity. }
  split; [exact Hs|]. split; [exact Hu|].
  exact (stream_error sampleHost _ sampleClient sampleChannel [hi] AnthropicChunk
           anthropicText [textDelta "Hel"] [] 1 (JsError "socket hang up") Hs Hu).
Defined.

Example error_reaches_caller_sample :
  (chat sampleHost (sampleSdk [textDelta "Hel"; Raise (JsError "socket hang up")])
     sampleClient sampleChannel [hi]).1
  = {| result := inl (JsError "socket hang up"); calls := [onToken "Hel"];
       cancelled := false |}.
Proof. reflexivity. Qed.

(** ** Unsupported providers *)

Lemma unrecognized_eqb (p : string) :
  p ∉ recognized ->
  String.eqb p "anthropic" = false /\ String.eqb p "openai" = false /\
  String.eqb p "google" = false /\ String.eqb p "cohere" = false /\
  String.eqb p "mistral" = false.
Proof.
  unfold recognized. rewrite !not_elem_of_cons, !String.eqb_neq. tauto.
Qed.

(** C10.  For a provider id outside the five known ones the constructor
    does not fail: it returns a client without any backend handle and
    without a model.  Every call of [chat] on a client of that provider is
    rejected with the error [Unsupported provider: <id>] (reported on the
    output channel), no callback being invoked: the failure shows at the
    first [chat], not at construction. *)
Theorem unsupported_provider_deferred (sdkNew : SdkNew) (config : AIClientConfig) :
  cfg_provider config ∉ recognized ->
  (exists c, newAIClient sdkNew config = inr c /\
     provider c = cfg_provider config /\ model c = None /\
     anthropicClient c = None /\ openaiClient c = None /\ googleClient c = None /\
     cohereClient c = None /\ mistralClient c = None /\ googleFileManager c = None) /\
  (forall host sdk this channel messages,
     provider this = cfg_provider config ->
     let error := JsError ("Unsupported provider: " +:+ cfg_provider config) in
     chat host sdk this channel messages
     = ({| result := inl error; calls := []; cancelled := isCancelled this |},
        reportError channel error)).
Proof.
  intros Hp. destruct (unrecognized_eqb _ Hp) as (Ha & Ho & Hg & Hc & Hm). split.
  - exists (freshClient (cfg_provider config)). unfold newAIClient.
    rewrite Ha, Ho, Hg, Hc, Hm. repeat split.
  - intros host sdk this channel messages Hthis. unfold chat.
    rewrite Hthis, Ha, Ho, Hg, Hc, Hm. reflexivity.
Qed.

Lemma unsupported_provider_deferred_witness :
  let config := {| cfg_provider := "ollama"; cfg_apiKey := None;
                   cfg_model := Some "llama3"; cfg_endpoint := None |} in
  (cfg_provider config ∉ recognized) /\
  newAIClient sampleNew config = inr (freshClient "ollama") /\
  (chat sampleHost (sampleSdk []) (freshClient "ollama") sampleChannel [hi]).1
  = {| result := inl (JsError "Unsupported provider: ollama"); calls := [];
       cancelled := false |}.
Proof.
  assert (Hp : "ollama" ∉ recognized).
  { apply (bool_decide_unpack _). vm_compute. exact I. }
  split; [exact Hp|].
  destruct (unsupported_provider_deferred sampleNew
              {| cfg_provider := "ollama"; cfg_apiKey := None;
                 cfg_model := Some "llama3"; cfg_endpoint := None |} Hp) as [_ Hchat].
  split; [reflexivity|].
  exact (f_equal fst (Hchat sampleHost (sampleSdk []) (freshClient "ollama")
                        sampleChannel [hi] eq_refl)).
Defined.

(** ** Client registry *)

(** The constructor keeps the provider id it is given. *)
Lemma newAIClient_provider (sdkNew : SdkNew) (config : AIClientConfig) (c : AIClient) :
  newAIClient sdkNew config = inr c -> provider c = cfg_provider config.
Proof.
  unfold newAIClient. intros H.
  repeat match type of H with
         | (if ?b then _ else _) = _ => destruct b
         | match ?x with _ => _ end = _ => destruct x
         end;
    inversion H; subst; reflexivity.
Qed.

Section RegistryFacts.
Context (sdkNew : SdkNew) (getModelInfo : string -> option ModelInfo).

(** The ways a call of [createClient] can go: it leaves the factory as
    it was, answering with the cached instance, a failure or a rejection;
    or it finds nothing cached, constructs a client of the provider and
    stores it under the key. *)
Lemma createClient_inv (P M : string) (f f' : Factory) (res : Exn + CreateResult) :
  createClient sdkNew getModelInfo P M f = (res, f') ->
  (f' = f /\
   ((exists ref, instances f !! instanceKey P M = Some ref /\ res = inr (found ref)) \/
    (instances f !! instanceKey P M = None /\
     ((exists error, res = inl error) \/ (exists text, res = inr (failed text)))))) \/
  (instances f !! instanceKey P M = None /\
   exists c, provider c = P /\
     res = inr (found (length (objects f))) /\
     f' = {| instances := <[instanceKey P M := length (objects f)]> (instances f);
             apiKeyManager := apiKeyManager f;
             objects := objects f ++ [c] |}).
Proof.
  unfold createClient. intros H.
  destruct (instances f !! instanceKey P M) as [ref|] eqn:Hhit.
  { inversion H; subst. left. split; [reflexivity|]. left. eauto. }
  destruct (if negb (String.eqb P "ollama") then getApiKey f P else inr None)
    as [rejection|apiKey].
  { inversion H; subst. left. split; [reflexivity|]. right. eauto. }
  destruct (negb (String.eqb P "ollama") && missing apiKey).
  { inversion H; subst. left. split; [reflexivity|]. right. eauto. }
  destruct (getModelInfo M) as [info|].
  2: { inversion H; subst. left. split; [reflexivity|]. right. eauto. }
  destruct (newAIClient _ _) as [error|c] eqn:Hnew.
  { destruct (message_of error); inversion H; subst;
      left; (split; [reflexivity|]); right; eauto. }
  inversion H; subst. right. split; [reflexivity|].
  exists c. split; [apply (newAIClient_provider _ _ _ Hnew)|]. split; reflexivity.
Qed.

(** [createClient] never removes or redirects an entry. *)
Lemma createClient_keeps (P M key : string) (ref : nat) (f : Factory) :
  instances f !! key = Some ref ->
  instances (createClient sdkNew getModelInfo P M f).2 !! key = Some ref.
Proof.
  intros Hkey.
  destruct (createClient sdkNew getModelInfo P M f) as [res f'] eqn:H.
  apply createClient_inv in H as [[-> _] | (Hmiss & c & _ & _ & ->)]; [exact Hkey|].
  cbn [snd instances]. rewrite lookup_insert_ne; [exact Hkey|].
  intros Heq. rewrite Heq in Hmiss. congruence.
Qed.

Lemma createClients_keep (requests : list (string * string)) (key : string) (ref : nat)
      (f : Factory) :
  instances f !! key = Some ref ->
  instances (createClients sdkNew getModelInfo requests f) !! key = Some ref.
Proof.
  revert f. induction requests as [|[P M] requests IH]; intros f Hkey; [exact Hkey|].
  apply IH, createClient_keeps, Hkey.
Qed.

(** A successful call leaves the client it returns in the cache. *)
Lemma createClient_success (P M : string) (f f1 : Factory) (r : CreateResult) :
  createClient sdkNew getModelInfo P M f = (inr r, f1) ->
  success r = true ->
  exists ref, r = found ref /\ instances f1 !! instanceKey P M = Some ref.
Proof.
  intros H Hok.
  apply createClient_inv in H
    as [[-> [(ref & Hhit & [= ->]) | (_ & [[e [=]] | [text [= ->]]])]]
       | (_ & c & _ & [= ->] & ->)].
  - eauto.
  - discriminate.
  - eexists. split; [reflexivity|]. cbn [instances]. apply lookup_insert_eq.
Qed.

End RegistryFacts.

(** The cache built by [createClient] is well formed, and stays so. *)
Lemma emptyFactory_wellFormed : wellFormed emptyFactory.
Proof. intros key ref H. cbn in H. rewrite lookup_empty in H. discriminate. Qed.

Lemma createClient_wellFormed (sdkNew : SdkNew) (getModelInfo : string -> option ModelInfo)
      (P M : string) (f : Factory) :
  wellFormed f -> wellFormed (createClient sdkNew getModelInfo P M f).2.
Proof.
  intros Hwf.
  destruct (createClient sdkNew getModelInfo P M f) as [res f'] eqn:H.
  apply createClient_inv in H as [[-> _] | (Hmiss & c & Hc & _ & ->)]; [exact Hwf|].
  intros key ref. cbn [snd instances objects]. rewrite lookup_insert.
  case_decide as Hkey.
  - intros [= <-]. exists c, M. split.
    + apply list_lookup_middle. reflexivity.
    + rewrite Hc. symmetry. exact Hkey.
  - intros Hold. destruct (Hwf _ _ Hold) as (c' & M' & Hc' & Hk').
    exists c', M'. split; [|exact Hk'].
    rewrite lookup_app_l; [exact Hc' | eapply lookup_lt_Some, Hc'].
Qed.

(** C3, as stated, fails: with no key stored for the provider the first
    call does not succeed, and neither does the second. *)
Lemma createClient_twice_without_key :
  let f0 := factoryWith (fun _ => None) in
  createClient sampleNew anyModel "openai" "gpt-4" f0
  = (inr (failed "APIKey.openai.Missing"), f0) /\
  createClient sampleNew anyModel "openai" "gpt-4"
    (createClient sampleNew anyModel "openai" "gpt-4" f0).2
  = (inr (failed "APIKey.openai.Missing"), f0).
Proof. split; reflexivity. Qed.

(** C3, amended.  If a call [createClient(P, M)] succeeds, then a second
    call [createClient(P, M)], with no invalidation in between (other
    calls of [createClient] may come in between), succeeds and returns the
    very same instance; the second call constructs nothing and leaves the
    factory as it found it. *)
Theorem createClient_twice_same_instance
        (sdkNew sdkNew' sdkNew'' : SdkNew)
        (getModelInfo getModelInfo' getModelInfo'' : string -> option ModelInfo)
        (P M : string) (f f1 : Factory) (r : CreateResult)
        (between : list (string * string)) :
  createClient sdkNew getModelInfo P M f = (inr r, f1) ->
  success r = true ->
  let f2 := createClients sdkNew' getModelInfo' between f1 in
  createClient sdkNew'' getModelInfo'' P M f2 = (inr r, f2) /\
  exists ref, client r = Some ref /\ getInstance P (Some M) f2 = Some ref.
Proof.
  intros H Hok f2.
  destruct (createClient_success _ _ _ _ _ _ _ H Hok) as (ref & -> & Hin).
  assert (Hin2 : instances f2 !! instanceKey P M = Some ref)
    by (apply createClients_keep, Hin).
  split.
  - unfold createClient. now rewrite Hin2.
  - exists ref. split; [reflexivity|]. exact Hin2.
Qed.

Lemma createClient_twice_same_instance_witness :
  let f0 := factoryWith (fun _ => Some "sk-1") in
  let first := createClient sampleNew anyModel "openai" "gpt-4" f0 in
  let f2 := createClients sampleNew anyModel [("mistral", "mistral-medium")] first.2 in
  first.1 = inr (found 0) /\
  success (found 0) = true /\
  createClient sampleNew anyModel "openai" "gpt-4" f2 = (inr (found 0), f2) /\
  exists ref, client (found 0) = Some ref /\ getInstance "openai" (Some "gpt-4") f2 = Some ref.
Proof.
  split; [reflexivity|]. split; [reflexivity|].
  exact (createClient_twice_same_instance sampleNew sampleNew sampleNew
           anyModel anyModel anyModel "openai" "gpt-4"
           (factoryWith (fun _ => Some "sk-1"))
           (createClient sampleNew anyModel "openai" "gpt-4"
              (factoryWith (fun _ => Some "sk-1"))).2
           (found 0) [("mistral", "mistral-medium")] eq_refl eq_refl).
Defined.

(** The loop of [invalidateClientsForProvider], over any list of keys. *)
Lemma invalidate_loop (P key : string) (keys : list string) (m : gmap string nat) :
  foldl (invalidateStep P) m keys !! key
  = if startsWith key (P +:+ "-") && bool_decide (key ∈ keys) then None else m !! key.
Proof.
  revert m. induction keys as [|k keys IH]; intros m.
  - cbn. now rewrite andb_false_r.
  - cbn [foldl]. rewrite IH. unfold invalidateStep.
    destruct (decide (key = k)) as [->|Hne].
    + rewrite (bool_decide_eq_true_2 (k ∈ k :: keys)) by left.
      destruct (startsWith k (P +:+ "-")); cbn [andb].
      * destruct (bool_decide (k ∈ keys)); [reflexivity | apply lookup_delete_eq].
      * reflexivity.
    + assert (Hmem : bool_decide (key ∈ k :: keys) = bool_decide (key ∈ keys)).
      { apply bool_decide_ext. rewrite elem_of_cons. tauto. }
      rewrite Hmem.
      destruct (startsWith k (P +:+ "-")); [|reflexivity].
      rewrite lookup_delete_ne by congruence. reflexivity.
Qed.

(** What [invalidateClientsForProvider] leaves under a key. *)
Lemma invalidate_lookup (P key : string) (f : Factory) :
  instances (invalidateClientsForProvider P f) !! key
  = if startsWith key (P +:+ "-") then None else instances f !! key.
Proof.
  cbn [invalidateClientsForProvider instances]. rewrite invalidate_loop.
  destruct (startsWith key (P +:+ "-")); [|reflexivity]. cbn [andb].
  case_bool_decide as Hin; [reflexivity|].
  destruct (instances f !! key) as [ref|] eqn:Hkey; [|reflexivity].
  exfalso. apply Hin. apply list_elem_of_fmap. exists (key, ref).
  split; [reflexivity|]. now apply elem_of_map_to_list.
Qed.

Lemma instanceKey_startsWith (P M : string) :
  startsWith (instanceKey P M) (P +:+ "-") = true.
Proof.
  unfold instanceKey.
  replace (P +:+ "-" +:+ orElse M "default") with ((P +:+ "-") +:+ orElse M "default")
    by apply append_assoc.
  apply startsWith_app.
Qed.

(** X21.  In a cache whose entries were stored by [createClient], no
    client of the invalidated provider stays reachable through the cache:
    whatever entry is left after [invalidate(P)] refers to a client of
    another provider. *)
Lemma invalidate_no_client_left (P key : string) (c : AIClient) (f : Factory) :
  wellFormed f ->
  cached (invalidateClientsForProvider P f) key = Some c -> provider c <> P.
Proof.
  intros Hwf. unfold cached. rewrite invalidate_lookup.
  destruct (startsWith key (P +:+ "-")) eqn:Hstart; [discriminate|].
  destruct (instances f !! key) as [ref|] eqn:Hkey; [|discriminate].
  cbn [objects invalidateClientsForProvider]. intros Hc HP.
  destruct (Hwf _ _ Hkey) as (c' & M & Hc' & ->).
  assert (c' = c) by congruence. subst c' P.
  rewrite instanceKey_startsWith in Hstart. discriminate.
Qed.

(** C4, as stated, fails: invalidating [openai] also removes the entry of
    the different provider [openai-compatible]. *)
Lemma invalidate_reaches_other_provider :
  let f := (createClient sampleNew anyModel "openai-compatible" "m1"
              (factoryWith (fun _ => Some "sk-1"))).2 in
  instances f !! instanceKey "openai-compatible" "m1" = Some 0 /\
  (provider <$> cached f (instanceKey "openai-compatible" "m1")) = Some "openai-compatible" /\
  "openai-compatible" <> "openai" /\
  instances (invalidateClientsForProvider "openai" f) !! instanceKey "openai-compatible" "m1"
  = None.
Proof.
  cbv zeta. split; [reflexivity|]. split; [reflexivity|]. split; [discriminate|].
  rewrite invalidate_lookup. reflexivity.
Qed.

(** C4, amended.  [invalidate(P)] removes every entry whose key has the
    provider component [P], touches no constructed client, and leaves every
    entry whose key does not start with [P-] present and unchanged; for
    provider ids without a hyphen these are all the entries of providers
    other than [P]. *)
Theorem invalidate_provider (P : string) (f : Factory) :
  let f' := invalidateClientsForProvider P f in
  objects f' = objects f /\
  (forall M, instances f' !! instanceKey P M = None) /\
  (forall key, startsWith key (P +:+ "-") = false ->
               instances f' !! key = instances f !! key /\ cached f' key = cached f key) /\
  (hyphenFree P -> forall Q M, hyphenFree Q -> Q <> P ->
     instances f' !! instanceKey Q M = instances f !! instanceKey Q M /\
     cached f' (instanceKey Q M) = cached f (instanceKey Q M)).
Proof.
  intros f'.
  assert (Hframe : forall key, startsWith key (P +:+ "-") = false ->
            instances f' !! key = instances f !! key /\ cached f' key = cached f key).
  { intros key Hkey.
    assert (H : instances f' !! key = instances f !! key).
    { unfold f'. rewrite invalidate_lookup, Hkey. reflexivity. }
    split; [exact H|]. unfold cached. rewrite H. reflexivity. }
  split; [reflexivity|]. split; [|split; [exact Hframe|]].
  - intros M. unfold f'. rewrite invalidate_lookup, instanceKey_startsWith. reflexivity.
  - intros HP Q M HQ Hne. apply Hframe.
    destruct (startsWith (instanceKey Q M) (P +:+ "-")) eqn:E; [|reflexivity].
    exfalso. apply Hne. symmetry. eapply hyphenFree_prefix; eassumption.
Qed.

Lemma invalidate_provider_witness :
  let f := createClients sampleNew anyModel
             [("openai", "gpt-4"); ("mistral", "mistral-medium"); ("openai", "")]
             (factoryWith (fun _ => Some "sk-1")) in
  let f' := invalidateClientsForProvider "openai" f in
  startsWith "mistral-mistral-medium" ("openai" +:+ "-") = false /\
  hyphenFree "openai" /\ hyphenFree "mistral" /\ "mistral" <> "openai" /\
  instances f !! "openai-gpt-4" = Some 0 /\
  instances f' !! instanceKey "openai" "gpt-4" = None /\
  instances f' !! instanceKey "openai" "" = None /\
  instances f' !! instanceKey "mistral" "mistral-medium" = Some 1 /\
  cached f' (instanceKey "mistral" "mistral-medium")
  = cached f (instanceKey "mistral" "mistral-medium").
Proof.
  cbv zeta.
  assert (H1 : hyphenFree "openai") by reflexivity.
  assert (H2 : hyphenFree "mistral") by reflexivity.
  assert (H3 : "mistral" <> "openai") by discriminate.
  destruct (invalidate_provider "openai"
              (createClients sampleNew anyModel
                 [("openai", "gpt-4"); ("mistral", "mistral-medium"); ("openai", "")]
                 (factoryWith (fun _ => Some "sk-1"))))
    as (_ & Hgone & _ & Hother).
  destruct (Hother H1 "mistral" "mistral-medium" H2 H3) as [Hsame Hcached].
  split; [reflexivity|]. split; [exact H1|]. split; [exact H2|]. split; [exact H3|].
  split; [reflexivity|]. split; [apply Hgone|]. split; [apply Hgone|].
  split; [rewrite Hsame; reflexivity | exact Hcached].
Defined.

(** C5.  For a provider [X] that needs a credential (any but [ollama])
    and a model [m1] with no cached instance, if the key manager has no key
    for [X] then [createClient(X, m1)] answers
    [{success: false, message: "APIKey.X.Missing"}], constructs no client
    and leaves the cache without an entry for that key. *)
Theorem createClient_missing_credential
        (sdkNew : SdkNew) (getModelInfo : string -> option ModelInfo)
        (X m1 : string) (f : Factory) :
  X <> "ollama" ->
  instances f !! instanceKey X m1 = None ->
  getApiKey f X = inr None ->
  let answer := createClient sdkNew getModelInfo X m1 f in
  answer.1 = inr {| success := false; message := Some ("APIKey." +:+ X +:+ ".Missing");
                    client := None |} /\
  answer.2 = f /\
  objects answer.2 = objects f /\
  getInstance X (Some m1) answer.2 = None.
Proof.
  intros HX Hmiss Hkey. unfold createClient.
  rewrite Hmiss. apply String.eqb_neq in HX. rewrite HX. cbn [negb andb].
  rewrite Hkey. cbn [missing fst snd]. repeat split. exact Hmiss.
Qed.

Lemma createClient_missing_credential_witness :
  let f0 := factoryWith (fun _ => None) in
  let answer := createClient sampleNew anyModel "X" "m1" f0 in
  "X" <> "ollama" /\
  instances f0 !! instanceKey "X" "m1" = None /\
  getApiKey f0 "X" = inr None /\
  answer.1 = inr {| success := false; message := Some "APIKey.X.Missing"; client := None |} /\
  answer.2 = f0 /\
  objects answer.2 = objects f0 /\
  getInstance "X" (Some "m1") answer.2 = None.
Proof.
  cbv zeta.
  assert (H1 : "X" <> "ollama") by discriminate.
  split; [exact H1|]. split; [reflexivity|]. split; [reflexivity|].
  exact (createClient_missing_credential sampleNew anyModel "X" "m1"
           (factoryWith (fun _ => None)) H1 eq_refl eq_refl).
Defined.

(** ** Chat orchestrator *)

Section OrchestratorFacts.
Context (co : Collaborators).

(** The overview depends on the manager through its client only. *)
Lemma generateSessionOverview_client (this this' : ChatManager) (message : string) :
  aiClient this' = aiClient this ->
  generateSessionOverview co this' message = generateSessionOverview co this message.
Proof. unfold generateSessionOverview. now intros ->. Qed.

(** [generateSessionOverview] always resolves. *)
Lemma generateSessionOverview_total (this : ChatManager) (message : string) :
  exists label, generateSessionOverview co this message = inr label.
Proof.
  unfold generateSessionOverview, tryCatch.
  destruct (aiClient this) as [client|]; [|eauto].
  destruct (result (client (overviewMessages co message))); eauto.
Qed.

End OrchestratorFacts.

(** C9.  Once the primary exchange has completed, [sendMessage] settles
    normally and stores as overview the label of the summary call, a call
    of the client on the summary prompt and the user's message alone.
    Whatever that call does, a label comes out: when the call raises an
    error, or completes with an empty text (or without a text), the label
    is ["New Chat"]; no outcome of the summary call makes [sendMessage]
    fail or changes what the primary exchange left. *)
Theorem overview_failure_absorbed (co : Collaborators) (this : ChatManager)
        (message selectedModel : string) :
  (exists label, generateSessionOverview co this message = inr label) /\
  (forall client,
     aiClient this = Some client ->
     let outcome := client [ {| role := system; content := Text (SESSION_SUMMARY_PROMPT co);
                                name := None; type := None |};
                             {| role := user; content := Text message;
                                name := None; type := None |} ] in
     ((exists error, result outcome = inl error) \/ overviewAfter (calls outcome) = "" ->
      generateSessionOverview co this message = inr "New Chat") /\
     ((exists text, result outcome = inr text) -> overviewAfter (calls outcome) <> "" ->
      generateSessionOverview co this message = inr (overviewAfter (calls outcome)))) /\
  (forall initMessage this1 messages',
     initializeClient co this selectedModel = inr (true, initMessage, this1) ->
     let this2 :=
       if negb (hasSystemPrompt this1) then initializeSystemPrompt co this1 selectedModel
       else this1 in
     handleMessage co (aiClient this2) (session_messages this2) message = inr messages' ->
     exists label,
       generateSessionOverview co this2 message = inr label /\
       sendMessage co this message selectedModel
       = (inr tt,
          {| aiClient := aiClient this2; currentModel := currentModel this2;
             session_messages := messages'; session_overview := label;
             saved := S (saved this2); posted := posted this2 |})).
Proof.
  split; [apply generateSessionOverview_total|]. split.
  - intros client Hclient. cbv zeta.
    unfold generateSessionOverview, overviewMessages, tryCatch. rewrite Hclient.
    generalize (client [ {| role := system; content := Text (SESSION_SUMMARY_PROMPT co);
                            name := None; type := None |};
                         {| role := user; content := Text message;
                            name := None; type := None |} ]).
    intros outcome. split.
    + intros [[error He] | Hempty].
      * rewrite He. reflexivity.
      * destruct (result outcome); [reflexivity|]. rewrite Hempty. reflexivity.
    + intros [text Ht] Hne. rewrite Ht. unfold orElse.
      destruct (overviewAfter (calls outcome)); [contradiction | reflexivity].
  - intros initMessage this1 messages' Hinit this2 Hprimary.
    destruct (generateSessionOverview_total co this2 message) as [label Hlabel].
    exists label. split; [exact Hlabel|].
    unfold sendMessage. rewrite Hinit. fold this2. rewrite Hprimary.
    match goal with
    | |- context [generateSessionOverview co ?this3 message] =>
        rewrite (generateSessionOverview_client co this2 this3 message eq_refl)
    end.
    rewrite Hlabel. reflexivity.
Qed.

Lemma overview_failure_absorbed_witness :
  let this := {| aiClient := Some failingClient; currentModel := "gpt-4";
                 session_messages := []; session_overview := ""; saved := 0; posted := [] |} in
  generateSessionOverview sampleCollaborators this "hi" = inr "New Chat" /\
  exists label,
    label = "New Chat" /\
    sendMessage sampleCollaborators newManager "hi" "gpt-4"
    = (inr tt,
       {| aiClient := Some failingClient; currentModel := "gpt-4";
          session_messages :=
            [ {| role := system; content := Text "You are Mode."; name := None; type := None |};
              {| role := user; content := Text "hi"; name := None; type := None |};
              {| role := assistant; content := Text "Hello!";
                 name := Some "Mode.ChatResponse"; type := None |} ];
          session_overview := label; saved := 1; posted := [] |}).
Proof.
  cbv zeta. split.
  - destruct (overview_failure_absorbed sampleCollaborators
                {| aiClient := Some failingClient; currentModel := "gpt-4";
                   session_messages := []; session_overview := ""; saved := 0; posted := [] |}
                "hi" "gpt-4") as (_ & Hclient & _).
    destruct (Hclient failingClient eq_refl) as [Hfail _].
    apply Hfail. left. exists (JsError "rate limited"). reflexivity.
  - destruct (overview_failure_absorbed sampleCollaborators newManager "hi" "gpt-4")
      as (_ & _ & Hsend).
    destruct (Hsend None
                {| aiClient := Some failingClient; currentModel := "gpt-4";
                   session_messages := []; session_overview := ""; saved := 0; posted := [] |}
                [ {| role := system; content := Text "You are Mode."; name := None; type := None |};
                  {| role := user; content := Text "hi"; name := None; type := None |};
                  {| role := assistant; content := Text "Hello!";
                     name := Some "Mode.ChatResponse"; type := None |} ]
                eq_refl eq_refl) as (label & Hlabel & Hsent).
    exists label. split; [|exact Hsent].
    cbv in Hlabel. congruence.
Defined.

(** * Further properties of the sources *)

(** ** The contract of the callbacks *)

Section ShapeFacts.
Context {C : Type} (textOf : C -> Exn + string).

(** The loop, from any state and over any events: the callbacks it adds
    are one [onToken] per non-empty fragment and then at most one
    [onComplete]; a text it returns is what it had, followed by the
    fragments. *)
Lemma consume_shape (events : list (Event C)) :
  forall isCancelled fullText done,
  exists tokens,
    Forall (fun t => truthy t = true) tokens /\
    (calls (consume textOf isCancelled fullText done events)
       = (done ++ (onToken <$> tokens))%list \/
     (calls (consume textOf isCancelled fullText done events)
        = (done ++ (onToken <$> tokens) ++ [onComplete (fullText +:+ joined tokens)])%list /\
      result (consume textOf isCancelled fullText done events)
        = inr (fullText +:+ joined tokens))) /\
    (forall t, result (consume textOf isCancelled fullText done events) = inr t ->
               t = fullText +:+ joined tokens).
Proof.
  induction events as [|e events IH]; intros isCancelled fullText done.
  - exists []. cbn [consume calls result joined foldr fmap list_fmap].
    rewrite append_nil_r, app_nil_l. split; [constructor|]. split.
    + right. split; reflexivity.
    + intros t [= <-]. reflexivity.
  - assert (Hstop : forall flag,
              exists tokens : list string,
                Forall (fun t => truthy t = true) tokens /\
                (calls {| result := inr fullText; calls := done; cancelled := flag |}
                   = (done ++ (onToken <$> tokens))%list \/
                 (calls {| result := inr fullText; calls := done; cancelled := flag |}
                    = (done ++ (onToken <$> tokens)
                         ++ [onComplete (fullText +:+ joined tokens)])%list /\
                  result {| result := inr fullText; calls := done; cancelled := flag |}
                    = inr (fullText +:+ joined tokens))) /\
                (forall t,
                   result {| result := inr fullText; calls := done; cancelled := flag |}
                     = inr t -> t = fullText +:+ joined tokens)).
    { intros flag. exists []. cbn [calls result joined foldr fmap list_fmap].
      rewrite append_nil_r, app_nil_r. split; [constructor|]. split; [left; reflexivity|].
      intros t [= <-]. reflexivity. }
    assert (Hthrow : forall flag error,
              exists tokens : list string,
                Forall (fun t => truthy t = true) tokens /\
                (calls {| result := inl error; calls := done; cancelled := flag |}
                   = (done ++ (onToken <$> tokens))%list \/
                 (calls {| result := inl error; calls := done; cancelled := flag |}
                    = (done ++ (onToken <$> tokens)
                         ++ [onComplete (fullText +:+ joined tokens)])%list /\
                  result {| result := inl error; calls := done; cancelled := flag |}
                    = inr (fullText +:+ joined tokens))) /\
                (forall t,
                   result {| result := inl error; calls := done; cancelled := flag |}
                     = inr t -> t = fullText +:+ joined tokens)).
    { intros flag error. exists []. cbn [calls result joined foldr fmap list_fmap].
      rewrite app_nil_r. split; [constructor|]. split; [left; reflexivity|].
      intros t [=]. }
    destruct e as [|chunk|error]; cbn [consume].
    + apply IH.
    + destruct isCancelled; [apply Hstop|].
      destruct (textOf chunk) as [error|text]; [apply Hthrow|].
      destruct (truthy text) eqn:Htext; [|apply IH].
      destruct (IH false (fullText +:+ text) (done ++ [onToken text])%list)
        as (tokens & Hall & Hcalls & Hres).
      exists (text :: tokens). cbn [joined foldr fmap list_fmap].
      fold (joined tokens). rewrite <- append_assoc.
      split; [constructor; assumption|]. split.
      * destruct Hcalls as [Hc | [Hc Hr]]; [left | right; split; [|exact Hr]];
          rewrite Hc, <- app_assoc; reflexivity.
      * exact Hres.
    + destruct isCancelled; [apply Hstop | apply Hthrow].
Qed.

Lemma consume_wellShaped (events : list (Event C)) :
  exists tokens,
    Forall (fun t => truthy t = true) tokens /\
    wellShaped tokens (consume textOf false "" [] events) /\
    (forall t, result (consume textOf false "" [] events) = inr t -> t = joined tokens).
Proof.
  destruct (consume_shape events false "" []) as (tokens & Hall & Hcalls & Hres).
  exists tokens. split; [exact Hall|]. split; [exact Hcalls | exact Hres].
Qed.

End ShapeFacts.

Lemma ended_wellShaped (r : Exn + string) (flag : bool) :
  (forall t, r = inr t -> t = "") ->
  exists tokens,
    Forall (fun t => truthy t = true) tokens /\
    wellShaped tokens {| result := r; calls := []; cancelled := flag |} /\
    (forall t, result {| result := r; calls := []; cancelled := flag |} = inr t ->
               t = joined tokens).
Proof.
  intros Hr. exists []. split; [constructor|]. split; [left; reflexivity|].
  cbn [result joined foldr]. exact Hr.
Qed.

(** X1.  Whatever the client, the backend and the history: the callbacks
    a call of [chat] invokes are one [onToken] per fragment, each fragment
    non-empty, followed by at most one [onComplete]; [onComplete] carries
    the concatenation of the fragments and comes only with a call that
    returns that text; and whenever the call returns a text, it is that
    concatenation. *)
Theorem chat_callback_contract host sdk this channel messages :
  exists tokens,
    Forall (fun t => truthy t = true) tokens /\
    wellShaped tokens (chat host sdk this channel messages).1 /\
    (forall t, result (chat host sdk this channel messages).1 = inr t -> t = joined tokens).
Proof.
  unfold chat.
  repeat match goal with
         | |- context [if String.eqb ?a ?b then _ else _] => destruct (String.eqb a b)
         end; cbn [fst].
  - unfold anthropicChat. destruct (anthropicClient this);
      [|apply ended_wellShaped; discriminate].
    destruct (anthropic_create _ _ _); cbn [openThenConsume];
      [apply ended_wellShaped; discriminate | apply consume_wellShaped].
  - unfold openaiChat. destruct (openaiClient this);
      [|apply ended_wellShaped; discriminate].
    destruct (openai_create _ _ _); cbn [openThenConsume];
      [apply ended_wellShaped; discriminate | apply consume_wellShaped].
  - unfold googleChat.
    destruct (googleClient this); [|apply ended_wellShaped; discriminate].
    destruct (googleFileManager this); [|apply ended_wellShaped; discriminate].
    cbv zeta. destruct (req_prompt _); [|apply ended_wellShaped; discriminate].
    destruct (google_sendMessageStream _ _ _) as [stopped error|events];
      cbn [consumeGuarded]; [|apply consume_wellShaped].
    apply ended_wellShaped. destruct stopped; [intros t [= <-]; reflexivity | discriminate].
  - unfold cohereChat. destruct (cohereClient this);
      [|apply ended_wellShaped; discriminate].
    destruct (cohere_chatStream _ _ _) as [stopped error|events];
      cbn [consumeGuarded]; [|apply consume_wellShaped].
    apply ended_wellShaped. destruct stopped; [intros t [= <-]; reflexivity | discriminate].
  - unfold mistralChat. destruct (mistralClient this);
      [|apply ended_wellShaped; discriminate].
    destruct (mistral_stream _ _ _) as [stopped error|events];
      cbn [consumeGuarded]; [|apply consume_wellShaped].
    apply ended_wellShaped. destruct stopped; [intros t [= <-]; reflexivity | discriminate].
  - apply ended_wellShaped. discriminate.
Qed.

(** ** How a call ends *)

(** X2.  A call whose stream delivers its chunks and ends, nobody asking
    to stop: every non-empty fragment goes to [onToken] in order,
    [onComplete] is called once, last, with the whole text, which the call
    returns; the flag is down at the end. *)
Theorem stream_completes host sdk this channel messages C textOf (events : list (Event C)) :
  Streaming host sdk this messages C textOf events ->
  undisturbed textOf events ->
  (chat host sdk this channel messages).1
  = {| result := inr (joined (delivered textOf events));
       calls := (onToken <$> delivered textOf events)
                  ++ [onComplete (joined (delivered textOf events))];
       cancelled := false |}.
Proof.
  intros Hs Hu. rewrite (chat_streaming _ _ _ _ _ _ _ _ Hs). cbn [fst].
  rewrite <- (app_nil_r events) at 1.
  rewrite (consume_undisturbed textOf events [] Hu). cbn [consume].
  rewrite append_nil_l, app_nil_l. reflexivity.
Qed.

Lemma stream_completes_witness :
  let events := [textDelta "Hel"; messageStop; textDelta "lo"] in
  Streaming sampleHost (sampleSdk events) sampleClient [hi] AnthropicChunk anthropicText events /\
  undisturbed anthropicText events /\
  (chat sampleHost (sampleSdk events) sampleClient sampleChannel [hi]).1
  = {| result := inr "Hello"; calls := [onToken "Hel"; onToken "lo"; onComplete "Hello"];
       cancelled := false |}.
Proof.
  assert (Hs : Streaming sampleHost
                 (sampleSdk [textDelta "Hel"; messageStop; textDelta "lo"])
                 sampleClient [hi] AnthropicChunk anthropicText
                 [textDelta "Hel"; messageStop; textDelta "lo"]).
  { eapply streaming_anthropic; reflexivity. }
  assert (Hu : undisturbed anthropicText [textDelta "Hel"; messageStop; textDelta "lo"]).
  { repeat constructor; eexists; reflexivity. }
  split; [exact Hs|]. split; [exact Hu|].
  exact (stream_completes sampleHost _ sampleClient sampleChannel [hi] AnthropicChunk
           anthropicText _ Hs Hu).
Defined.

(** X3.  The flag is read when a chunk arrives and when the stream
    throws, not when the stream ends: stop requests that come after the
    last chunk do not cut the call short.  [onComplete] is still called
    with the whole text, and the flag stays up. *)
Theorem stop_after_last_chunk host sdk this channel messages C textOf
        (pre : list (Event C)) (n : nat) :
  Streaming host sdk this messages C textOf (pre ++ replicate (S n) Stop) ->
  undisturbed textOf pre ->
  (chat host sdk this channel messages).1
  = {| result := inr (joined (delivered textOf pre));
       calls := (onToken <$> delivered textOf pre)
                  ++ [onComplete (joined (delivered textOf pre))];
       cancelled := true |}.
Proof.
  intros Hs Hu. rewrite (chat_streaming _ _ _ _ _ _ _ _ Hs). cbn [fst].
  rewrite (consume_undisturbed textOf pre _ Hu).
  change (replicate (S n) (@Stop C)) with (@Stop C :: replicate n Stop).
  cbn [consume]. rewrite consume_cancelled_at_end.
  rewrite append_nil_l, app_nil_l. reflexivity.
Qed.

Lemma stop_after_last_chunk_witness :
  let events := [textDelta "Hel"; textDelta "lo"; Stop; Stop] in
  Streaming sampleHost (sampleSdk events) sampleClient [hi] AnthropicChunk anthropicText
    ([textDelta "Hel"; textDelta "lo"] ++ replicate 2 Stop) /\
  undisturbed anthropicText [textDelta "Hel"; textDelta "lo"] /\
  (chat sampleHost (sampleSdk events) sampleClient sampleChannel [hi]).1
  = {| result := inr "Hello"; calls := [onToken "Hel"; onToken "lo"; onComplete "Hello"];
       cancelled := true |}.
Proof.
  assert (Hs : Streaming sampleHost
                 (sampleSdk [textDelta "Hel"; textDelta "lo"; Stop; Stop])
                 sampleClient [hi] AnthropicChunk anthropicText
                 ([textDelta "Hel"; textDelta "lo"] ++ replicate 2 Stop)).
  { eapply streaming_anthropic; reflexivity. }
  assert (Hu : undisturbed anthropicText [textDelta "Hel"; textDelta "lo"]).
  { repeat constructor; eexists; reflexivity. }
  split; [exact Hs|]. split; [exact Hu|].
  exact (stop_after_last_chunk sampleHost _ sampleClient sampleChannel [hi] AnthropicChunk
           anthropicText [textDelta "Hel"; textDelta "lo"] 1 Hs Hu).
Defined.

(** X4.  A chunk its adapter cannot read ends the call with the error of
    the read: the fragments before it were delivered, [onComplete] is not
    called, and the chunks after it are not looked at.  Of the five
    adapters only Mistral's reads without a guard: a chunk with no choice
    throws there, where OpenAI's adapter reads an empty text. *)
Theorem unreadable_chunk host sdk this channel messages C textOf
        (pre post : list (Event C)) (chunk : C) (error : Exn) :
  Streaming host sdk this messages C textOf (pre ++ Yield chunk :: post) ->
  undisturbed textOf pre ->
  textOf chunk = inl error ->
  (chat host sdk this channel messages).1
  = {| result := inl error; calls := onToken <$> delivered textOf pre; cancelled := false |} /\
  mistralText mistralEmpty
  = inl (JsError "Cannot read properties of undefined (reading 'delta')") /\
  openaiText {| chunk_choices := [] |} = inr "".
Proof.
  intros Hs Hu Hbad. split; [|split; reflexivity].
  rewrite (chat_streaming _ _ _ _ _ _ _ _ Hs). cbn [fst].
  rewrite (consume_undisturbed textOf pre _ Hu). cbn [consume]. rewrite Hbad.
  rewrite app_nil_l. reflexivity.
Qed.

Lemma unreadable_chunk_witness :
  let events := [mistralDelta "Bon"; Yield mistralEmpty; mistralDelta "jour"] in
  let sdk := sdkWith (Opened []) (Opened events) in
  Streaming sampleHost sdk sampleMistral [hi] MistralChunk mistralText
    ([mistralDelta "Bon"] ++ Yield mistralEmpty :: [mistralDelta "jour"]) /\
  undisturbed mistralText [mistralDelta "Bon"] /\
  mistralText mistralEmpty
  = inl (JsError "Cannot read properties of undefined (reading 'delta')") /\
  (chat sampleHost sdk sampleMistral sampleChannel [hi]).1
  = {| result := inl (JsError "Cannot read properties of undefined (reading 'delta')");
       calls := [onToken "Bon"]; cancelled := false |}.
Proof.
  assert (Hs : Streaming sampleHost
                 (sdkWith (Opened [])
                    (Opened [mistralDelta "Bon"; Yield mistralEmpty; mistralDelta "jour"]))
                 sampleMistral [hi] MistralChunk mistralText
                 ([mistralDelta "Bon"] ++ Yield mistralEmpty :: [mistralDelta "jour"])).
  { eapply streaming_mistral; reflexivity. }
  assert (Hu : undisturbed mistralText [mistralDelta "Bon"]).
  { repeat constructor; eexists; reflexivity. }
  split; [exact Hs|]. split; [exact Hu|]. split; [reflexivity|].
  exact (proj1 (unreadable_chunk sampleHost _ sampleMistral sampleChannel [hi] MistralChunk
                  mistralText [mistralDelta "Bon"] [mistralDelta "jour"] mistralEmpty _
                  Hs Hu eq_refl)).
Defined.

(** X5.  When the backend fails to open the stream no callback is
    invoked.  The adapters of Anthropic and OpenAI open the stream before
    their [try]: the error reaches the caller even if a stop was requested
    meanwhile.  Those of Google, Cohere and Mistral open it inside: a stop
    requested meanwhile turns the failure into a normal return of the
    empty text. *)
Theorem stream_refused host sdk this channel messages
        (guarded stopped : bool) (error : Exn) :
  Refused host sdk this messages guarded stopped error ->
  chat host sdk this channel messages
  = ({| result := if guarded && stopped then inr "" else inl error;
        calls := []; cancelled := stopped |}, channel).
Proof.
  intros H. destruct H as
    [h stopped error Hp Hh Hs | h stopped error Hp Hh Hs
    | h fm stopped error Hp Hh Hfm Hpr Hs
    | h stopped error Hp Hh Hs | h stopped error Hp Hh Hs];
    unfold chat; rewrite Hp; cbn [String.eqb Ascii.eqb Bool.eqb andb].
  - unfold anthropicChat. now rewrite Hh, Hs.
  - unfold openaiChat. now rewrite Hh, Hs.
  - unfold googleChat. rewrite Hh, Hfm. cbv zeta.
    destruct Hpr as [p Hpr]. now rewrite Hpr, Hs.
  - unfold cohereChat. now rewrite Hh, Hs.
  - unfold mistralChat. now rewrite Hh, Hs.
Qed.

Lemma stream_refused_witness :
  let down := JsError "503" in
  let sdk := sdkWith (Rejected true down) (Rejected true down) in
  Refused sampleHost sdk sampleClient [hi] false true down /\
  Refused sampleHost sdk sampleMistral [hi] true true down /\
  (chat sampleHost sdk sampleClient sampleChannel [hi]).1
  = {| result := inl down; calls := []; cancelled := true |} /\
  (chat sampleHost sdk sampleMistral sampleChannel [hi]).1
  = {| result := inr ""; calls := []; cancelled := true |}.
Proof.
  assert (Ha : Refused sampleHost
                 (sdkWith (Rejected true (JsError "503")) (Rejected true (JsError "503")))
                 sampleClient [hi] false true (JsError "503")).
  { eapply refused_anthropic; reflexivity. }
  assert (Hm : Refused sampleHost
                 (sdkWith (Rejected true (JsError "503")) (Rejected true (JsError "503")))
                 sampleMistral [hi] true true (JsError "503")).
  { eapply refused_mistral; reflexivity. }
  split; [exact Ha|]. split; [exact Hm|]. split.
  - exact (f_equal fst (stream_refused sampleHost _ sampleClient sampleChannel [hi]
                          false true _ Ha)).
  - exact (f_equal fst (stream_refused sampleHost _ sampleMistral sampleChannel [hi]
                          true true _ Hm)).
Defined.

(** ** What [chat] does not depend on *)

(** X6.  Every adapter lowers the flag before anything else: what a call
    of [chat] on a client of a known provider does is the same whether the
    flag was up or down when the call began.  A [stopGeneration] that
    precedes the call is forgotten. *)
Theorem stop_before_call_forgotten host sdk this channel messages (flag : bool) :
  provider this ∈ recognized ->
  chat host sdk (set_isCancelled flag this) channel messages
  = chat host sdk this channel messages /\
  chat host sdk (stopGeneration this) channel messages
  = chat host sdk this channel messages.
Proof.
  intros Hp.
  assert (H : forall b, chat host sdk (set_isCancelled b this) channel messages
                        = chat host sdk this channel messages).
  { intros b. unfold chat. cbn [provider set_isCancelled].
    destruct (String.eqb (provider this) "anthropic") eqn:Ea; [reflexivity|].
    destruct (String.eqb (provider this) "openai") eqn:Eo; [reflexivity|].
    destruct (String.eqb (provider this) "google") eqn:Eg; [reflexivity|].
    destruct (String.eqb (provider this) "cohere") eqn:Ec; [reflexivity|].
    destruct (String.eqb (provider this) "mistral") eqn:Em; [reflexivity|].
    exfalso. apply String.eqb_neq in Ea, Eo, Eg, Ec, Em.
    unfold recognized in Hp. rewrite !elem_of_cons in Hp.
    destruct Hp as [?|[?|[?|[?|[?|Hp]]]]]; try contradiction. inversion Hp. }
  split; [apply H | apply (H true)].
Qed.

Lemma stop_before_call_forgotten_witness :
  let events := [textDelta "Hello"] in
  (provider sampleClient ∈ recognized) /\
  (chat sampleHost (sampleSdk events) (stopGeneration sampleClient) sampleChannel [hi]).1
  = {| result := inr "Hello"; calls := [onToken "Hello"; onComplete "Hello"];
       cancelled := false |}.
Proof.
  assert (Hp : provider sampleClient ∈ recognized).
  { apply (bool_decide_unpack _). vm_compute. exact I. }
  split; [exact Hp|].
  rewrite (proj2 (stop_before_call_forgotten sampleHost (sampleSdk [textDelta "Hello"])
                    sampleClient sampleChannel [hi] true Hp)).
  reflexivity.
Defined.

Lemma filterDiagnostic_app (l1 l2 : list AIMessage) :
  filterDiagnosticMessages (l1 ++ l2)
  = (filterDiagnosticMessages l1 ++ filterDiagnosticMessages l2)%list.
Proof. unfold filterDiagnosticMessages. apply List.filter_app. Qed.

Lemma filterDiagnostic_idempotent (messages : list AIMessage) :
  filterDiagnosticMessages (filterDiagnosticMessages messages)
  = filterDiagnosticMessages messages.
Proof.
  unfold filterDiagnosticMessages.
  induction messages as [|m ms IH]; [reflexivity|].
  cbn [List.filter]. destruct (keepMessage m) eqn:K; [|exact IH].
  cbn [List.filter]. rewrite K, IH. reflexivity.
Qed.

(** Two histories with the same surviving messages are one to [chat]. *)
Lemma chat_filtered host sdk this channel (messages messages' : list AIMessage) :
  filterDiagnosticMessages messages = filterDiagnosticMessages messages' ->
  chat host sdk this channel messages = chat host sdk this channel messages'.
Proof. intros H. unfold chat. rewrite H. reflexivity. Qed.

(** X7.  Diagnostic messages never weigh on a call: a history with a
    diagnostic message put anywhere in it is to [chat] (the request built,
    the callbacks, the result, the output channel) the history without
    it; and filtering the history beforehand changes nothing. *)
Theorem chat_ignores_diagnostics host sdk this channel
        (before after : list AIMessage) (d : AIMessage) :
  Diagnostic d ->
  chat host sdk this channel (before ++ d :: after)
  = chat host sdk this channel (before ++ after) /\
  chat host sdk this channel (filterDiagnosticMessages (before ++ d :: after))
  = chat host sdk this channel (before ++ after).
Proof.
  intros Hd.
  assert (H : filterDiagnosticMessages (before ++ d :: after)
              = filterDiagnosticMessages (before ++ after)).
  { rewrite !filterDiagnostic_app. f_equal.
    unfold filterDiagnosticMessages. cbn [List.filter].
    apply keepMessage_false in Hd. rewrite Hd. reflexivity. }
  split; apply chat_filtered; [exact H|].
  rewrite filterDiagnostic_idempotent. exact H.
Qed.

Lemma chat_ignores_diagnostics_witness :
  let events := [textDelta "Hello"] in
  Diagnostic diagnosticNote /\
  chat sampleHost (sampleSdk events) sampleClient sampleChannel ([hi] ++ diagnosticNote :: [hi])
  = chat sampleHost (sampleSdk events) sampleClient sampleChannel ([hi] ++ [hi]).
Proof.
  assert (Hd : Diagnostic diagnosticNote).
  { eapply diag_string; reflexivity. }
  split; [exact Hd|].
  exact (proj1 (chat_ignores_diagnostics sampleHost (sampleSdk [textDelta "Hello"])
                  sampleClient sampleChannel [hi] [hi] diagnosticNote Hd)).
Defined.

(** ** The requests *)

Lemma find_first_system (pre post : list AIMessage) (s : AIMessage) :
  Forall (fun m => role m <> system) pre -> role s = system ->
  List.find (fun msg => bool_decide (role msg = system)) (pre ++ s :: post) = Some s.
Proof.
  intros Hpre Hs. induction Hpre as [|m pre Hm _ IH]; cbn [app List.find].
  - rewrite bool_decide_eq_true_2 by exact Hs. reflexivity.
  - rewrite bool_decide_eq_false_2 by exact Hm. exact IH.
Qed.

Lemma find_no_system (messages : list AIMessage) :
  Forall (fun m => role m <> system) messages ->
  List.find (fun msg => bool_decide (role msg = system)) messages = None.
Proof.
  induction 1 as [|m ms Hm _ IH]; cbn [List.find]; [reflexivity|].
  rewrite bool_decide_eq_false_2 by exact Hm. exact IH.
Qed.

Lemma filter_not_system (messages : list AIMessage) :
  List.filter (fun msg => negb (bool_decide (role msg = system))) messages
  = filter (fun m => role m <> system) messages.
Proof.
  induction messages as [|m ms IH]; [reflexivity|].
  cbn [List.filter]. rewrite filter_cons, IH.
  destruct (decide (role m <> system)) as [Hne|Heq].
  - rewrite bool_decide_eq_false_2 by exact Hne. reflexivity.
  - rewrite bool_decide_eq_true_2; [reflexivity|].
    destruct (decide (role m = system)); [assumption | contradiction].
Qed.

(** X8.  The request for Anthropic keeps the system prompt out of the
    message array.  The array has one entry for each message that is not
    of role [system], in order, made of that message alone: its role
    ([user] or [assistant]) and its content (an image data URL formatted
    as image blocks, any other string wrapped in one text block, an array
    as it is).  The [system] field is the content of the first system
    message of the history, nothing when there is none; system messages
    after the first are in neither place. *)
Theorem anthropic_hoists_system host this (messages : list AIMessage) :
  req_messages (anthropicRequest host this messages)
  = (fun m =>
       {| rm_role := match role m with
                     | user => "user" | assistant => "assistant" | system => "system"
                     end;
          rm_content :=
            match content m with
            | Text s =>
                if startsWith s "data:image"
                then Image (formatImageContent "anthropic" s)
                else Body (Parts [Structured {| part_type := Some "text";
                                                part_text := Some s; part_rest := [] |}])
            | Parts items => Body (Parts items)
            end |})
    <$> filter (fun m => role m <> system) messages /\
  Forall (fun rm => rm_role rm = "user" \/ rm_role rm = "assistant")
         (req_messages (anthropicRequest host this messages)) /\
  (Forall (fun m => role m <> system) messages ->
   req_system (anthropicRequest host this messages) = None) /\
  (forall pre s post,
     messages = (pre ++ s :: post)%list ->
     Forall (fun m => role m <> system) pre -> role s = system ->
     req_system (anthropicRequest host this messages) = Some (content s)).
Proof.
  cbn [req_messages req_system anthropicRequest]. rewrite filter_not_system.
  change (map ?f ?l) with (f <$> l).
  split; [|split; [|split]].
  - apply list_fmap_ext. intros _ m _. f_equal.
    destruct (content m) as [s|items]; cbn [isImageData dataOf textBlocks];
      [destruct (startsWith s "data:image")|]; reflexivity.
  - apply Forall_fmap, Forall_forall.
    intros m Hm. apply list_elem_of_filter in Hm as [Hne _]. cbn [rm_role compose].
    destruct (role m); [left | right | contradiction]; reflexivity.
  - intros Hnone. rewrite find_no_system by exact Hnone. reflexivity.
  - intros pre s post -> Hpre Hs. rewrite find_first_system by assumption. reflexivity.
Qed.

Example anthropic_hoists_system_sample :
  let r := anthropicRequest sampleHost sampleClient [systemNote "Be brief."; hi; systemNote "Be long."] in
  req_system r = Some (Text "Be brief.") /\
  req_messages r
  = [ {| rm_role := "user";
         rm_content := Body (Parts [Structured {| part_type := Some "text";
                                                  part_text := Some "hi";
                                                  part_rest := [] |}]) |} ].
Proof. split; reflexivity. Qed.

(** X9.  The request for OpenAI, built for a client with its model set,
    carries one entry per message of the history, none left out (image
    messages included).  For a model whose name starts with [o1] no entry
    has the role [system] (such messages are sent as [user]) and the token
    limit goes under [max_completion_tokens]; for any other model the
    roles are those of the history and the limit goes under
    [max_tokens]. *)
Theorem openai_request_shape host this (m : string) (messages : list AIMessage) :
  model this = Some m ->
  length (req_messages (openaiRequest host this messages)) = length messages /\
  (startsWith m "o1" = true ->
   rm_role <$> req_messages (openaiRequest host this messages)
   = (fun msg => if bool_decide (role msg = system) then "user" else roleName (role msg))
       <$> messages /\
   Forall (fun rm => rm_role rm <> "system") (req_messages (openaiRequest host this messages)) /\
   req_limit (openaiRequest host this messages) = Some ("max_completion_tokens", 4096)) /\
  (startsWith m "o1" = false ->
   rm_role <$> req_messages (openaiRequest host this messages)
   = (fun msg => roleName (role msg)) <$> messages /\
   req_limit (openaiRequest host this messages) = Some ("max_tokens", 4096)).
Proof.
  intros Hm. cbn [req_messages req_limit openaiRequest]. split; [apply length_map|].
  unfold isO1. rewrite Hm.
  change (map ?f ?l) with (f <$> l). split; intros Ho; rewrite Ho; cbn [andb].
  - split; [|split; [|reflexivity]].
    + rewrite <- list_fmap_compose. reflexivity.
    + apply Forall_fmap, Forall_forall. intros msg _. cbn [rm_role compose].
      case_bool_decide as Hr; [discriminate|].
      destruct (role msg); [discriminate | discriminate | contradiction].
  - split; [|reflexivity]. rewrite <- list_fmap_compose. reflexivity.
Qed.

Lemma openai_request_shape_witness :
  let this := {| anthropicClient := None;
                 openaiClient := Some {| handle_class := "OpenAI"; handle_key := Some "k" |};
                 googleClient := None; cohereClient := None; mistralClient := None;
                 provider := "openai"; model := Some "o1-mini"; isCancelled := false;
                 googleFileManager := None |} in
  model this = Some "o1-mini" /\
  startsWith "o1-mini" "o1" = true /\
  rm_role <$> req_messages (openaiRequest sampleHost this [systemNote "Be brief."; hi; picture])
  = ["user"; "user"; "user"] /\
  req_limit (openaiRequest sampleHost this [systemNote "Be brief."; hi; picture])
  = Some ("max_completion_tokens", 4096).
Proof.
  cbv zeta. split; [reflexivity|]. split; [reflexivity|].
  destruct (proj1 (proj2 (openai_request_shape sampleHost
              {| anthropicClient := None;
                 openaiClient := Some {| handle_class := "OpenAI"; handle_key := Some "k" |};
                 googleClient := None; cohereClient := None; mistralClient := None;
                 provider := "openai"; model := Some "o1-mini"; isCancelled := false;
                 googleFileManager := None |}
              "o1-mini" [systemNote "Be brief."; hi; picture] eq_refl)) eq_refl)
    as (Hroles & _ & Hlimit).
  split; [exact Hroles | exact Hlimit].
Defined.

Lemma googleProcessed_roles (messages : list AIMessage) :
  Forall (fun rm => rm_role rm = "user" \/ rm_role rm = "model") (googleProcessed messages).
Proof.
  unfold googleProcessed. change (map ?f ?l) with (f <$> l).
  apply Forall_fmap, Forall_forall. intros m _. cbn [rm_role compose].
  case_bool_decide; [right | left]; reflexivity.
Qed.

(** X10.  The request for Google is made of the messages that are not
    marked as image, each turned into one entry, in order: the role is
    [model] for an assistant message and [user] for a user message and for
    a system message alike, the parts are the content (an image data URL
    formatted, any other string as one text part, an array as it is).  The
    last entry gives the prompt, the entries before it the history; there
    is no prompt exactly when no message is left. *)
Theorem google_request_shape host this (messages : list AIMessage) :
  let entry := fun m =>
    {| rm_role := match role m with
                  | assistant => "model" | user => "user" | system => "user"
                  end;
       rm_content :=
         match content m with
         | Text s =>
             if startsWith s "data:image"
             then Image (formatImageContent "google" s)
             else Body (Parts [Structured {| part_type := None;
                                             part_text := Some s; part_rest := [] |}])
         | Parts items => Body (Parts items)
         end |} in
  (req_prompt (googleRequest host this messages) = None <->
   filter (fun m => type m <> Some image) messages = []) /\
  (forall prompt,
     req_prompt (googleRequest host this messages) = Some prompt ->
     exists lastMessage,
       rm_content lastMessage = prompt /\
       (req_messages (googleRequest host this messages) ++ [lastMessage])%list
       = entry <$> filter (fun m => type m <> Some image) messages) /\
  Forall (fun rm => rm_role rm = "user" \/ rm_role rm = "model")
         (req_messages (googleRequest host this messages)).
Proof.
  intros entry.
  assert (Hproc : googleProcessed messages
                  = entry <$> filter (fun m => type m <> Some image) messages).
  { unfold googleProcessed. rewrite notImage_filter.
    change (map ?f ?l) with (f <$> l). apply list_fmap_ext. intros _ m _.
    unfold entry. f_equal.
    - destruct (role m); reflexivity.
    - destruct (content m) as [s|items]; cbn [isImageData dataOf googleParts];
        [destruct (startsWith s "data:image")|]; reflexivity. }
  cbn [req_prompt req_messages googleRequest]. split; [|split].
  - rewrite Hproc.
    destruct (filter (fun m => type m <> Some image) messages) as [|m ms] eqn:E.
    + split; reflexivity.
    + split; [|discriminate]. intros H. exfalso.
      apply fmap_None, last_None in H. discriminate.
  - intros prompt Hp. rewrite <- Hproc.
    destruct (last (googleProcessed messages)) as [lastMessage|] eqn:Hlast; [|discriminate].
    exists lastMessage. split; [now inversion Hp|].
    apply last_Some in Hlast as [l' Hl']. rewrite Hl'.
    rewrite removelast_last. reflexivity.
  - assert (Hall := googleProcessed_roles messages).
    destruct (googleProcessed messages) as [|rm l] eqn:E using rev_ind; [constructor|].
    rewrite removelast_last. apply Forall_app in Hall as [Hall _]. exact Hall.
Qed.

Example google_request_shape_sample :
  let r := googleRequest sampleHost sampleGoogle [systemNote "Be brief."; picture; hi] in
  rm_role <$> req_messages r = ["user"] /\
  req_prompt r
  = Some (Body (Parts [Structured {| part_type := None; part_text := Some "hi";
                                     part_rest := [] |}])).
Proof. split; reflexivity. Qed.

(** X11.  A call of [chat] on a Google client whose history holds nothing
    but diagnostic messages and image messages (or nothing at all) is
    rejected with a [TypeError], before the backend is asked: no request
    is sent and no callback is invoked. *)
Theorem google_nothing_to_send host sdk this channel (messages : list AIMessage) h fm :
  provider this = "google" ->
  googleClient this = Some h ->
  googleFileManager this = Some fm ->
  Forall (fun m => Diagnostic m \/ type m = Some image) messages ->
  chat host sdk this channel messages
  = (throws (JsError "Cannot read properties of undefined (reading 'parts')"), channel).
Proof.
  intros Hp Hh Hfm Hall. unfold chat. rewrite Hp. cbn [String.eqb Ascii.eqb Bool.eqb].
  unfold googleChat. rewrite Hh, Hfm. cbv zeta.
  assert (Hnone : req_prompt (googleRequest host this (filterDiagnosticMessages messages))
                  = None).
  { cbn [req_prompt googleRequest]. unfold googleProcessed, filterDiagnosticMessages.
    assert (E : List.filter notImage (List.filter keepMessage messages) = []).
    { induction Hall as [|m ms Hm _ IH]; [reflexivity|].
      cbn [List.filter]. destruct Hm as [Hd|Hi].
      - apply keepMessage_false in Hd. rewrite Hd. exact IH.
      - destruct (keepMessage m); [|exact IH].
        cbn [List.filter]. unfold notImage at 1.
        rewrite bool_decide_eq_true_2 by exact Hi. exact IH. }
    rewrite E. reflexivity. }
  rewrite Hnone. reflexivity.
Qed.

Lemma google_nothing_to_send_witness :
  provider sampleGoogle = "google" /\
  Forall (fun m => Diagnostic m \/ type m = Some image) [diagnosticNote; picture] /\
  chat sampleHost (sampleSdk []) sampleGoogle sampleChannel [diagnosticNote; picture]
  = (throws (JsError "Cannot read properties of undefined (reading 'parts')"), sampleChannel).
Proof.
  assert (Hall : Forall (fun m => Diagnostic m \/ type m = Some image)
                        [diagnosticNote; picture]).
  { constructor; [left; eapply diag_string; reflexivity|].
    constructor; [right; reflexivity | constructor]. }
  split; [reflexivity|]. split; [exact Hall|].
  exact (google_nothing_to_send sampleHost (sampleSdk []) sampleGoogle sampleChannel
           [diagnosticNote; picture] _ _ eq_refl eq_refl eq_refl Hall).
Defined.

(** ** Image payloads *)

Lemma drop_length_app (h p : string) : drop (String.length h) (h +:+ p) = p.
Proof.
  induction h as [|a h IH]; [destruct p; reflexivity|].
  rewrite append_cons. exact IH.
Qed.

(** X12.  The image block for Anthropic carries the bare base64 payload
    of a png or jpeg data URL: the header [data:image/png;base64,] or
    [data:image/jpeg;base64,] is taken off and nothing else.  A data URL
    with any other header is passed whole, header included; it is labelled
    [image/png] if it starts with [data:image/png] (a png with parameters
    before [;base64], say) and [image/jpeg] otherwise (a gif, say). *)
Theorem anthropic_payload (payload url : string) :
  formatImageContent "anthropic" ("data:image/png;base64," +:+ payload)
  = Blocks [image_block "base64" "image/png" payload; text_block "Describe this image."] /\
  formatImageContent "anthropic" ("data:image/jpeg;base64," +:+ payload)
  = Blocks [image_block "base64" "image/jpeg" payload; text_block "Describe this image."] /\
  (startsWith url "data:image/png;base64," = false ->
   startsWith url "data:image/jpeg;base64," = false ->
   formatImageContent "anthropic" url
   = Blocks [image_block "base64"
               (if startsWith url "data:image/png" then "image/png" else "image/jpeg") url;
             text_block "Describe this image."]).
Proof.
  split; [|split].
  - change (formatImageContent "anthropic" ("data:image/png;base64," +:+ payload))
      with (Blocks [image_block "base64" "image/png"
                      (drop (String.length "data:image/png;base64,")
                            ("data:image/png;base64," +:+ payload));
                    text_block "Describe this image."]).
    rewrite drop_length_app. reflexivity.
  - change (formatImageContent "anthropic" ("data:image/jpeg;base64," +:+ payload))
      with (Blocks [image_block "base64" "image/jpeg"
                      (drop (String.length "data:image/jpeg;base64,")
                            ("data:image/jpeg;base64," +:+ payload));
                    text_block "Describe this image."]).
    rewrite drop_length_app. reflexivity.
  - intros Hpng Hjpeg.
    change (formatImageContent "anthropic" url)
      with (Blocks [image_block "base64" (detectMediaType url) (stripBase64Header url);
                    text_block "Describe this image."]).
    unfold detectMediaType, stripBase64Header. rewrite Hpng, Hjpeg. reflexivity.
Qed.

Lemma anthropic_payload_witness :
  startsWith "data:image/gif;base64,R0lG" "data:image/png;base64," = false /\
  startsWith "data:image/gif;base64,R0lG" "data:image/jpeg;base64," = false /\
  formatImageContent "anthropic" "data:image/gif;base64,R0lG"
  = Blocks [image_block "base64" "image/jpeg" "data:image/gif;base64,R0lG";
            text_block "Describe this image."] /\
  formatImageContent "anthropic" "data:image/png;charset=utf-8;base64,AAAA"
  = Blocks [image_block "base64" "image/png" "data:image/png;charset=utf-8;base64,AAAA";
            text_block "Describe this image."].
Proof.
  split; [reflexivity|]. split; [reflexivity|]. split.
  - exact (proj2 (proj2 (anthropic_payload "" "data:image/gif;base64,R0lG"))
             eq_refl eq_refl).
  - exact (proj2 (proj2 (anthropic_payload "" "data:image/png;charset=utf-8;base64,AAAA"))
             eq_refl eq_refl).
Defined.

(** ** Constructed clients *)

Lemma modelOr_truthy (m : option string) (fallback : string) :
  truthy fallback = true -> truthy (modelOr m fallback) = true.
Proof.
  intros Hf. unfold modelOr, orElse. destruct m as [s|]; [|exact Hf].
  destruct (truthy s) eqn:Hs; [exact Hs | exact Hf].
Qed.

Lemma modelOr_given (s fallback : string) :
  truthy s = true -> modelOr (Some s) fallback = s.
Proof. intros Hs. unfold modelOr, orElse. rewrite Hs. reflexivity. Qed.

(** X13.  A client the constructor returns for one of the five known
    providers is ready for [chat]: the handle its adapter works with is
    set (for Google the file manager too) and so is its model, which is
    never empty: it is the model of the configuration when that is a
    non-empty string, and a default otherwise. *)
Theorem constructed_client_ready (sdkNew : SdkNew) (config : AIClientConfig) (c : AIClient) :
  newAIClient sdkNew config = inr c ->
  cfg_provider config ∈ recognized ->
  provider c = cfg_provider config /\
  is_Some (backendHandle c) /\
  (provider c = "google" -> is_Some (googleFileManager c)) /\
  (exists m, model c = Some m /\ truthy m = true /\
     (forall s, cfg_model config = Some s -> truthy s = true -> m = s)).
Proof.
  intros H Hp. unfold newAIClient in H. unfold backendHandle.
  assert (Hmodel : forall fallback, truthy fallback = true ->
            exists m, Some (modelOr (cfg_model config) fallback) = Some m /\
                      truthy m = true /\
                      (forall s, cfg_model config = Some s -> truthy s = true -> m = s)).
  { intros fallback Hf. eexists. split; [reflexivity|].
    split; [apply modelOr_truthy, Hf|].
    intros s -> Hs. apply modelOr_given, Hs. }
  destruct (String.eqb (cfg_provider config) "anthropic") eqn:Ea.
  { destruct (sdkNew "Anthropic" _); [discriminate|]. inversion H; subst c; clear H.
    cbn [provider set_model anthropicClient model googleFileManager freshClient].
    rewrite Ea. apply String.eqb_eq in Ea.
    split; [reflexivity|]. split; [eauto|]. split; [|apply Hmodel; reflexivity].
    rewrite Ea. discriminate. }
  destruct (String.eqb (cfg_provider config) "openai") eqn:Eo.
  { destruct (sdkNew "OpenAI" _); [discriminate|]. inversion H; subst c; clear H.
    cbn [provider set_model openaiClient model googleFileManager freshClient].
    rewrite Ea, Eo. apply String.eqb_eq in Eo.
    split; [reflexivity|]. split; [eauto|]. split; [|apply Hmodel; reflexivity].
    rewrite Eo. discriminate. }
  destruct (String.eqb (cfg_provider config) "google") eqn:Eg.
  { destruct (sdkNew "GoogleGenerativeAI" _); [discriminate|].
    destruct (sdkNew "GoogleAIFileManager" _); [discriminate|].
    inversion H; subst c; clear H.
    cbn [provider set_model googleClient model googleFileManager freshClient].
    rewrite Ea, Eo, Eg.
    split; [reflexivity|]. split; [eauto|]. split; [eauto | apply Hmodel; reflexivity]. }
  destruct (String.eqb (cfg_provider config) "cohere") eqn:Ec.
  { destruct (sdkNew "Cohere" _); [discriminate|]. inversion H; subst c; clear H.
    cbn [provider set_model cohereClient model googleFileManager freshClient].
    rewrite Ea, Eo, Eg, Ec. apply String.eqb_eq in Ec.
    split; [reflexivity|]. split; [eauto|]. split; [|apply Hmodel; reflexivity].
    rewrite Ec. discriminate. }
  destruct (String.eqb (cfg_provider config) "mistral") eqn:Em.
  { destruct (sdkNew "Mistral" _); [discriminate|]. inversion H; subst c; clear H.
    cbn [provider set_model mistralClient model googleFileManager freshClient].
    rewrite Ea, Eo, Eg, Ec, Em. apply String.eqb_eq in Em.
    split; [reflexivity|]. split; [eauto|]. split; [|apply Hmodel; reflexivity].
    rewrite Em. discriminate. }
  exfalso. apply String.eqb_neq in Ea, Eo, Eg, Ec, Em.
  unfold recognized in Hp. rewrite !elem_of_cons in Hp.
  destruct Hp as [?|[?|[?|[?|[?|Hp]]]]]; try contradiction. inversion Hp.
Qed.

Lemma constructed_client_ready_witness :
  let config := {| cfg_provider := "cohere"; cfg_apiKey := Some "k";
                   cfg_model := Some ""; cfg_endpoint := None |} in
  exists c,
    newAIClient sampleNew config = inr c /\
    (cfg_provider config ∈ recognized) /\
    is_Some (backendHandle c) /\
    model c = Some "command".
Proof.
  cbv zeta.
  assert (Hp : "cohere" ∈ recognized).
  { apply (bool_decide_unpack _). vm_compute. exact I. }
  eexists. split; [reflexivity|]. split; [exact Hp|].
  split; [|reflexivity].
  exact (proj1 (proj2 (constructed_client_ready sampleNew
                         {| cfg_provider := "cohere"; cfg_apiKey := Some "k";
                            cfg_model := Some ""; cfg_endpoint := None |} _ eq_refl Hp))).
Defined.

(** ** The registry: failures *)

Section CreateFacts.
Context (sdkNew : SdkNew) (getModelInfo : string -> option ModelInfo).

(** The credential step, read as a proposition. *)
Lemma credential_step (P : string) (f : Factory) :
  credentialed f P <->
  (if negb (String.eqb P "ollama") then getApiKey f P else inr None)
  = inr (resolvedKey f P) /\
  negb (String.eqb P "ollama") && missing (resolvedKey f P) = false.
Proof.
  unfold credentialed, resolvedKey, missing.
  destruct (String.eqb P "ollama") eqn:E; cbn [negb andb].
  - apply String.eqb_eq in E. split; [intros _; split; reflexivity | left; exact E].
  - apply String.eqb_neq in E. destruct (getApiKey f P) as [e|[k|]].
    + split; [intros [?|(k & [=] & _)]; contradiction | intros [[=] _]].
    + rewrite negb_false_iff. split.
      * intros [?|(k' & [= <-] & Hk)]; [contradiction|]. split; [reflexivity | exact Hk].
      * intros [_ Hk]. right. exists k. split; [reflexivity | exact Hk].
    + split; [intros [?|(k & [=] & _)]; contradiction | intros [_ [=]]].
Qed.

(** What [createClient] does once nothing is cached and the credential
    step is passed. *)
Lemma createClient_credentialed (P M : string) (f : Factory) :
  instances f !! instanceKey P M = None ->
  credentialed f P ->
  createClient sdkNew getModelInfo P M f
  = match getModelInfo M with
    | None => (inl (JsError "Cannot read properties of undefined (reading 'endpoint')"), f)
    | Some info =>
        match newAIClient sdkNew (configOf f P M info) with
        | inr c =>
            (inr (found (length (objects f))),
             {| instances := <[instanceKey P M := length (objects f)]> (instances f);
                apiKeyManager := apiKeyManager f;
                objects := objects f ++ [c] |})
        | inl error =>
            match message_of error with
            | inr text =>
                (inr (failed ("Failed to initialize " +:+ P +:+ " client: " +:+ text)), f)
            | inl typeError => (inl typeError, f)
            end
        end
    end.
Proof.
  intros Hmiss Hcred. apply credential_step in Hcred as [Hkey Hok].
  unfold createClient. rewrite Hmiss, Hkey, Hok. reflexivity.
Qed.

(** X14.  A call of [createClient] that does not succeed (it answers
    [success: false], or its promise is rejected) leaves the registry as it
    was: nothing is cached and no client is kept. *)
Theorem createClient_failure_changes_nothing (P M : string) (f f' : Factory)
        (res : Exn + CreateResult) :
  createClient sdkNew getModelInfo P M f = (res, f') ->
  (forall r, res = inr r -> success r = false) ->
  f' = f.
Proof.
  intros H Hfail.
  apply createClient_inv in H as [[-> _] | (_ & c & _ & -> & _)]; [reflexivity|].
  specialize (Hfail _ eq_refl). discriminate.
Qed.

(** X15.  With the lookup of the model registry returning metadata or
    nothing, the promise of [createClient] is rejected in three cases and
    in no other, each with nothing cached under the key: the awaited key
    manager rejects (for a provider other than [ollama]); the credential
    step is passed and the model is unknown to the model registry (the
    endpoint is read off its missing metadata outside the [try]); the
    credential step is passed, the model is known and the constructor
    throws [null] or [undefined] (the [catch] block then throws when it
    reads the message).  Every other failure comes back in the result
    object. *)
Theorem createClient_rejects_exactly (P M : string) (f : Factory) :
  (exists error, (createClient sdkNew getModelInfo P M f).1 = inl error) <->
  instances f !! instanceKey P M = None /\
  ((P <> "ollama" /\ exists rejection, getApiKey f P = inl rejection) \/
   (credentialed f P /\
    (getModelInfo M = None \/
     exists info thrown,
       getModelInfo M = Some info /\
       newAIClient sdkNew (configOf f P M info) = inl thrown /\
       (thrown = ThrownNull \/ thrown = ThrownUndefined)))).
Proof.
  destruct (instances f !! instanceKey P M) as [ref|] eqn:Hhit.
  { unfold createClient. rewrite Hhit.
    split; [intros [e He]; discriminate | intros [[=] _]]. }
  split.
  - intros [error Herr]. split; [reflexivity|].
    destruct (String.eqb P "ollama") eqn:E.
    + right. apply String.eqb_eq in E.
      assert (Hcred : credentialed f P) by (left; exact E).
      split; [exact Hcred|].
      rewrite (createClient_credentialed _ _ _ Hhit Hcred) in Herr.
      destruct (getModelInfo M) as [info|]; [|left; reflexivity]. right.
      destruct (newAIClient sdkNew (configOf f P M info)) as [thrown|c] eqn:Hnew;
        [|discriminate].
      exists info, thrown. split; [reflexivity|]. split; [exact Hnew|].
      destruct thrown; cbn in Herr; try discriminate; auto.
    + apply String.eqb_neq in E. destruct (getApiKey f P) as [rejection|[k|]] eqn:Hkey.
      * left. split; [exact E | eauto].
      * destruct (truthy k) eqn:Hk.
        -- right.
           assert (Hcred : credentialed f P) by (right; exists k; split; assumption).
           split; [exact Hcred|].
           rewrite (createClient_credentialed _ _ _ Hhit Hcred) in Herr.
           destruct (getModelInfo M) as [info|]; [|left; reflexivity]. right.
           destruct (newAIClient sdkNew (configOf f P M info)) as [thrown|c] eqn:Hnew;
             [|discriminate].
           exists info, thrown. split; [reflexivity|]. split; [exact Hnew|].
           destruct thrown; cbn in Herr; try discriminate; auto.
        -- exfalso. unfold createClient in Herr. rewrite Hhit in Herr.
           apply String.eqb_neq in E. rewrite E in Herr. cbn [negb andb] in Herr.
           rewrite Hkey in Herr. cbn [missing] in Herr. rewrite Hk in Herr.
           discriminate.
      * exfalso. unfold createClient in Herr. rewrite Hhit in Herr.
        apply String.eqb_neq in E. rewrite E in Herr. cbn [negb andb] in Herr.
        rewrite Hkey in Herr. discriminate.
  - intros [_ [[HP [rejection Hrej]] | [Hcred Hwhy]]].
    + unfold createClient. rewrite Hhit.
      apply String.eqb_neq in HP. rewrite HP. cbn [negb]. rewrite Hrej. eauto.
    + rewrite (createClient_credentialed _ _ _ Hhit Hcred).
      destruct Hwhy as [-> | (info & thrown & -> & -> & [-> | ->])]; cbn; eauto.
Qed.

(** X16.  When the constructor of the client throws (an SDK refuses the
    configuration), the [catch] block of [createClient] reads the message
    of what was thrown.  For an [Error] it answers [success: false] with
    the message [Failed to initialize <provider> client: ] followed by the
    message of the error (for a value without a message, by [undefined]);
    for a thrown [null] or [undefined] the read itself throws and the
    promise is rejected with that [TypeError].  The registry is unchanged
    in every case. *)
Theorem createClient_wraps_construction_error (P M : string) (f : Factory)
        (info : ModelInfo) (error : Exn) :
  instances f !! instanceKey P M = None ->
  credentialed f P ->
  getModelInfo M = Some info ->
  newAIClient sdkNew (configOf f P M info) = inl error ->
  (forall text,
     error = JsError text \/ error = ThrownWithMessage text \/
     (text = "undefined" /\ exists value, error = Thrown value) ->
     createClient sdkNew getModelInfo P M f
     = (inr {| success := false;
               message := Some ("Failed to initialize " +:+ P +:+ " client: " +:+ text);
               client := None |}, f)) /\
  (error = ThrownNull ->
   createClient sdkNew getModelInfo P M f
   = (inl (JsError "Cannot read properties of null (reading 'message')"), f)) /\
  (error = ThrownUndefined ->
   createClient sdkNew getModelInfo P M f
   = (inl (JsError "Cannot read properties of undefined (reading 'message')"), f)).
Proof.
  intros Hmiss Hcred Hinfo Hnew.
  rewrite (createClient_credentialed _ _ _ Hmiss Hcred), Hinfo, Hnew.
  split; [|split].
  - intros text [-> | [-> | [-> [value ->]]]]; reflexivity.
  - intros ->. reflexivity.
  - intros ->. reflexivity.
Qed.

(** X17.  The cache is keyed by the string [provider-model] alone: once
    [createClient(P, M)] has succeeded, [createClient(P', M')] for any
    pair with the same key returns that same instance and constructs
    nothing, whatever [P'] and [M'] are.  So the models [""] and
    ["default"] share an instance, and so do pairs that split the key at
    another hyphen. *)
Theorem createClient_shares_by_key (P M P' M' : string) (f f1 : Factory) (r : CreateResult) :
  instanceKey P M = instanceKey P' M' ->
  createClient sdkNew getModelInfo P M f = (inr r, f1) ->
  success r = true ->
  createClient sdkNew getModelInfo P' M' f1 = (inr r, f1).
Proof.
  intros Hkey H Hok.
  destruct (createClient_success _ _ _ _ _ _ _ H Hok) as (ref & -> & Hin).
  unfold createClient. rewrite <- Hkey, Hin. reflexivity.
Qed.

(** X18.  After [invalidate(P)], a successful [createClient(P, M)] never
    serves a client that was cached before: it constructs a new one, of
    provider [P], stores it under the key and returns the reference of the
    new object. *)
Theorem createClient_after_invalidate (P M : string) (f f' : Factory) (r : CreateResult) :
  createClient sdkNew getModelInfo P M (invalidateClientsForProvider P f) = (inr r, f') ->
  success r = true ->
  client r = Some (length (objects f)) /\
  exists c, objects f' = (objects f ++ [c])%list /\ provider c = P /\
            cached f' (instanceKey P M) = Some c.
Proof.
  intros H Hok.
  apply createClient_inv in H
    as [[_ [(ref & Hhit & _) | (_ & [[e [=]] | [text [= ->]]])]]
       | (_ & c & Hc & [= ->] & ->)].
  - rewrite invalidate_lookup, instanceKey_startsWith in Hhit. discriminate.
  - discriminate.
  - cbn [client found objects invalidateClientsForProvider].
    split; [reflexivity|]. exists c. split; [reflexivity|]. split; [exact Hc|].
    unfold cached. cbn [instances objects]. rewrite lookup_insert_eq.
    apply list_lookup_middle. reflexivity.
Qed.

End CreateFacts.

Lemma createClient_failure_changes_nothing_witness :
  let f0 := factoryWith (fun _ => Some "sk-1") in
  createClient sampleNew noModel "openai" "gpt-9" f0
  = (inl (JsError "Cannot read properties of undefined (reading 'endpoint')"), f0) /\
  (createClient sampleNew noModel "openai" "gpt-9" f0).2 = f0.
Proof.
  split; [reflexivity|].
  apply (createClient_failure_changes_nothing sampleNew noModel "openai" "gpt-9"
           (factoryWith (fun _ => Some "sk-1")) _
           (inl (JsError "Cannot read properties of undefined (reading 'endpoint')"))
           eq_refl).
  intros r Hr. discriminate.
Defined.

Lemma createClient_wraps_construction_error_witness :
  let f0 := factoryWith (fun _ => Some "sk-1") in
  instances f0 !! instanceKey "openai" "gpt-4" = None /\
  credentialed f0 "openai" /\
  newAIClient refusingNew (configOf f0 "openai" "gpt-4" {| endpoint := None |})
  = inl (JsError "Missing credentials") /\
  createClient refusingNew anyModel "openai" "gpt-4" f0
  = (inr (failed "Failed to initialize openai client: Missing credentials"), f0).
Proof.
  cbv zeta.
  assert (Hc : credentialed (factoryWith (fun _ => Some "sk-1")) "openai").
  { right. exists "sk-1". split; reflexivity. }
  split; [reflexivity|]. split; [exact Hc|]. split; [reflexivity|].
  apply (proj1 (createClient_wraps_construction_error refusingNew anyModel "openai" "gpt-4"
                  (factoryWith (fun _ => Some "sk-1")) {| endpoint := None |}
                  (JsError "Missing credentials") eq_refl Hc eq_refl eq_refl)).
  left. reflexivity.
Defined.

Example createClient_catch_throws_sample :
  createClient (fun _ _ => inl ThrownNull) anyModel "openai" "gpt-4"
    (factoryWith (fun _ => Some "sk-1"))
  = (inl (JsError "Cannot read properties of null (reading 'message')"),
     factoryWith (fun _ => Some "sk-1")).
Proof. reflexivity. Qed.

Lemma createClient_shares_by_key_witness :
  let f0 := factoryWith (fun _ => Some "sk-1") in
  let first := createClient sampleNew anyModel "openai-compatible" "m1" f0 in
  instanceKey "openai-compatible" "m1" = instanceKey "openai" "compatible-m1" /\
  first.1 = inr (found 0) /\
  createClient sampleNew anyModel "openai" "compatible-m1" first.2 = (inr (found 0), first.2) /\
  (provider <$> cached first.2 (instanceKey "openai" "compatible-m1"))
  = Some "openai-compatible".
Proof.
  cbv zeta. split; [reflexivity|]. split; [reflexivity|]. split; [|reflexivity].
  exact (createClient_shares_by_key sampleNew anyModel
           "openai-compatible" "m1" "openai" "compatible-m1"
           (factoryWith (fun _ => Some "sk-1"))
           (createClient sampleNew anyModel "openai-compatible" "m1"
              (factoryWith (fun _ => Some "sk-1"))).2
           (found 0) eq_refl eq_refl eq_refl).
Defined.

Lemma createClient_after_invalidate_witness :
  let f := (createClient sampleNew anyModel "openai" "gpt-4"
              (factoryWith (fun _ => Some "sk-1"))).2 in
  let again := createClient sampleNew anyModel "openai" "gpt-4"
                 (invalidateClientsForProvider "openai" f) in
  getInstance "openai" (Some "gpt-4") f = Some 0 /\
  again.1 = inr (found 1) /\
  client (found 1) = Some (length (objects f)) /\
  exists c, objects again.2 = (objects f ++ [c])%list /\ provider c = "openai" /\
            cached again.2 (instanceKey "openai" "gpt-4") = Some c.
Proof.
  cbv zeta. split; [reflexivity|]. split; [reflexivity|].
  exact (createClient_after_invalidate sampleNew anyModel "openai" "gpt-4"
           (createClient sampleNew anyModel "openai" "gpt-4"
              (factoryWith (fun _ => Some "sk-1"))).2
           _ (found 1) eq_refl eq_refl).
Defined.

(** X19.  [createClient] asks no key for the provider [ollama]: with the
    model known it succeeds, without a key manager even, and caches a new
    client.  But the client class has no backend for [ollama]: that client
    has no handle and no model, and every [chat] on it is rejected with
    [Unsupported provider: ollama]. *)
Theorem ollama_client_unusable (sdkNew : SdkNew) (getModelInfo : string -> option ModelInfo)
        (M : string) (f : Factory) (info : ModelInfo) :
  instances f !! instanceKey "ollama" M = None ->
  getModelInfo M = Some info ->
  (createClient sdkNew getModelInfo "ollama" M f).1 = inr (found (length (objects f))) /\
  cached (createClient sdkNew getModelInfo "ollama" M f).2 (instanceKey "ollama" M)
  = Some (freshClient "ollama") /\
  (forall host sdk channel messages,
     (chat host sdk (freshClient "ollama") channel messages).1
     = {| result := inl (JsError "Unsupported provider: ollama"); calls := [];
          cancelled := false |}).
Proof.
  intros Hmiss Hinfo. unfold createClient. rewrite Hmiss, Hinfo.
  cbn [String.eqb Ascii.eqb Bool.eqb negb andb newAIClient cfg_provider fst snd].
  split; [reflexivity|]. split; [|reflexivity].
  unfold cached. cbn [instances objects]. rewrite lookup_insert_eq.
  apply list_lookup_middle. reflexivity.
Qed.

Lemma ollama_client_unusable_witness :
  instances emptyFactory !! instanceKey "ollama" "llama3" = None /\
  anyModel "llama3" = Some {| endpoint := None |} /\
  (createClient refusingNew anyModel "ollama" "llama3" emptyFactory).1 = inr (found 0) /\
  (chat sampleHost (sampleSdk []) (freshClient "ollama") sampleChannel [hi]).1
  = {| result := inl (JsError "Unsupported provider: ollama"); calls := [];
       cancelled := false |}.
Proof.
  destruct (ollama_client_unusable refusingNew anyModel "llama3" emptyFactory
              {| endpoint := None |} eq_refl eq_refl) as (Hres & _ & Hchat).
  split; [reflexivity|]. split; [reflexivity|]. split; [exact Hres|].
  apply Hchat.
Defined.

(** ** The registry: invariants of its runs *)

Lemma invalidate_wellFormed (P : string) (f : Factory) :
  wellFormed f -> wellFormed (invalidateClientsForProvider P f).
Proof.
  intros Hwf key ref. rewrite invalidate_lookup.
  destruct (startsWith key (P +:+ "-")); [discriminate|].
  cbn [objects invalidateClientsForProvider]. apply Hwf.
Qed.

Lemma applyOp_wellFormed sdkNew getModelInfo (op : RegistryOp) (f : Factory) :
  wellFormed f -> wellFormed (applyOp sdkNew getModelInfo f op).
Proof.
  intros Hwf. destruct op as [manager|P M|P]; cbn [applyOp].
  - exact Hwf.
  - apply createClient_wellFormed, Hwf.
  - apply invalidate_wellFormed, Hwf.
Qed.

Lemma applyOp_objects sdkNew getModelInfo (op : RegistryOp) (f : Factory) :
  exists more, objects (applyOp sdkNew getModelInfo f op) = (objects f ++ more)%list.
Proof.
  destruct op as [manager|P M|P]; cbn [applyOp].
  - exists []. cbn. now rewrite app_nil_r.
  - destruct (createClient sdkNew getModelInfo P M f) as [res f'] eqn:H.
    apply createClient_inv in H as [[-> _] | (_ & c & _ & _ & ->)].
    + exists []. cbn. now rewrite app_nil_r.
    + exists [c]. reflexivity.
  - exists []. cbn. now rewrite app_nil_r.
Qed.

(** X20.  Through any run of [initialize], [createClient] and
    [invalidateClientsForProvider] from the empty registry, every entry of
    the cache refers to a constructed client, stored under the key made of
    that client's own provider id and of a model; and the constructed
    clients are only ever added to: a reference obtained at some point of
    the run denotes the same client ever after, also once its entry was
    invalidated. *)
Theorem registry_runs sdkNew getModelInfo (ops more : list RegistryOp) :
  wellFormed (runOps sdkNew getModelInfo ops emptyFactory) /\
  (forall ref c,
     objects (runOps sdkNew getModelInfo ops emptyFactory) !! ref = Some c ->
     objects (runOps sdkNew getModelInfo (ops ++ more) emptyFactory) !! ref = Some c).
Proof.
  split.
  - unfold runOps. generalize emptyFactory_wellFormed. generalize emptyFactory.
    induction ops as [|op ops IH]; intros f Hwf; [exact Hwf|].
    cbn [foldl]. apply IH, applyOp_wellFormed, Hwf.
  - unfold runOps. rewrite foldl_app.
    generalize (foldl (applyOp sdkNew getModelInfo) emptyFactory ops).
    induction more as [|op more IH]; intros f ref c Hc; [exact Hc|].
    cbn [foldl]. apply IH.
    destruct (applyOp_objects sdkNew getModelInfo op f) as [extra ->].
    rewrite lookup_app_l; [exact Hc | eapply lookup_lt_Some, Hc].
Qed.

Example registry_runs_sample :
  let f := runOps sampleNew anyModel
             [OpInitialize (fun _ => inr (Some "sk-1")); OpCreate "openai" "gpt-4";
              OpCreate "mistral" ""; OpInvalidate "openai"; OpCreate "openai" "gpt-4"]
             emptyFactory in
  getInstance "openai" (Some "gpt-4") f = Some 2 /\
  getInstance "mistral" None f = Some 1 /\
  (provider <$> objects f) = ["openai"; "mistral"; "openai"].
Proof. repeat split. Qed.

Lemma invalidate_no_client_left_witness :
  let f := createClients sampleNew anyModel
             [("openai", "gpt-4"); ("mistral", "mistral-medium")]
             (factoryWith (fun _ => Some "sk-1")) in
  wellFormed f /\
  cached (invalidateClientsForProvider "openai" f) (instanceKey "mistral" "mistral-medium")
  = Some (set_model "mistral-medium"
            {| anthropicClient := None; openaiClient := None; googleClient := None;
               cohereClient := None;
               mistralClient := Some {| handle_class := "Mistral"; handle_key := Some "sk-1" |};
               provider := "mistral"; model := None; isCancelled := false;
               googleFileManager := None |}) /\
  "mistral" <> "openai".
Proof.
  cbv zeta.
  assert (Hwf : wellFormed
                  (createClients sampleNew anyModel
                     [("openai", "gpt-4"); ("mistral", "mistral-medium")]
                     (factoryWith (fun _ => Some "sk-1")))).
  { apply createClient_wellFormed, createClient_wellFormed.
    intros key ref H. cbn in H. rewrite lookup_empty in H. discriminate. }
  assert (Hc : cached (invalidateClientsForProvider "openai"
                         (createClients sampleNew anyModel
                            [("openai", "gpt-4"); ("mistral", "mistral-medium")]
                            (factoryWith (fun _ => Some "sk-1"))))
                      (instanceKey "mistral" "mistral-medium")
               = Some (set_model "mistral-medium"
                         {| anthropicClient := None; openaiClient := None;
                            googleClient := None; cohereClient := None;
                            mistralClient :=
                              Some {| handle_class := "Mistral"; handle_key := Some "sk-1" |};
                            provider := "mistral"; model := None; isCancelled := false;
                            googleFileManager := None |})).
  { unfold cached. rewrite invalidate_lookup. reflexivity. }
  split; [exact Hwf|]. split; [exact Hc|].
  exact (invalidate_no_client_left "openai" _ _ _ Hwf Hc).
Defined.

(** X22.  Invalidating a provider twice is invalidating it once, and
    providers can be invalidated in any order. *)
Theorem invalidate_algebra (P Q : string) (f : Factory) :
  invalidateClientsForProvider P (invalidateClientsForProvider P f)
  = invalidateClientsForProvider P f /\
  invalidateClientsForProvider P (invalidateClientsForProvider Q f)
  = invalidateClientsForProvider Q (invalidateClientsForProvider P f).
Proof.
  assert (Hext : forall g h : Factory,
            apiKeyManager g = apiKeyManager h -> objects g = objects h ->
            (forall key, instances g !! key = instances h !! key) -> g = h).
  { intros [gi gm go] [hi hm ho]. cbn. intros -> -> Hi. f_equal. apply map_eq, Hi. }
  split; apply Hext; try reflexivity; intros key; rewrite !invalidate_lookup.
  - destruct (startsWith key (P +:+ "-")); reflexivity.
  - destruct (startsWith key (P +:+ "-")), (startsWith key (Q +:+ "-")); reflexivity.
Qed.

(** ** The orchestrator: before and around the primary exchange *)

(** X23.  When no client can be had for the selected model (the factory
    answers [success: false]), [sendMessage] settles normally after
    posting one [addChatError] with the factory's message: the handler is
    not called, nothing is saved, no overview is generated, and the client
    and model the manager held are kept. *)
Theorem sendMessage_without_client (co : Collaborators) (this : ChatManager)
        (message selectedModel : string) (res : Created) :
  currentModel this <> selectedModel \/ aiClient this = None ->
  createClientFor co selectedModel = inr res ->
  created_success res = false ->
  sendMessage co this message selectedModel
  = (inr tt,
     {| aiClient := aiClient this; currentModel := currentModel this;
        session_messages := session_messages this;
        session_overview := session_overview this;
        saved := saved this;
        posted := posted this ++ [addChatError (created_message res)] |}).
Proof.
  intros Hneed Hres Hfail. unfold sendMessage, initializeClient.
  assert (Hcond : negb (String.eqb (currentModel this) selectedModel)
                  || negb (bool_decide (is_Some (aiClient this))) = true).
  { destruct Hneed as [Hne|Hnone].
    - apply String.eqb_neq in Hne. rewrite Hne. reflexivity.
    - rewrite Hnone, orb_true_iff. right.
      rewrite bool_decide_eq_false_2; [reflexivity|]. intros [c Hc]. discriminate. }
  rewrite Hcond, Hres, Hfail.
  destruct (created_client res); reflexivity.
Qed.

Lemma sendMessage_without_client_witness :
  (currentModel newManager <> "gpt-4" \/ aiClient newManager = None) /\
  sendMessage keylessCollaborators newManager "hi" "gpt-4"
  = (inr tt,
     {| aiClient := None; currentModel := ""; session_messages := [];
        session_overview := ""; saved := 0;
        posted := [addChatError (Some "APIKey.openai.Missing")] |}).
Proof.
  assert (H : currentModel newManager <> "gpt-4" \/ aiClient newManager = None)
    by (right; reflexivity).
  split; [exact H|].
  exact (sendMessage_without_client keylessCollaborators newManager "hi" "gpt-4"
           {| created_success := false; created_message := Some "APIKey.openai.Missing";
              created_client := None |} H eq_refl eq_refl).
Defined.

(** X24.  When the primary exchange fails, [sendMessage] is rejected
    with the error of the handler: the sessions are not saved and the
    overview is not generated (the summary call is not made); the system
    prompt set up for the exchange stays in the session. *)
Theorem sendMessage_primary_failure (co : Collaborators) (this this1 : ChatManager)
        (message selectedModel : string) (initMessage : option string) (error : Exn) :
  initializeClient co this selectedModel = inr (true, initMessage, this1) ->
  handleMessage co (aiClient (withSystemPrompt co this1 selectedModel))
    (session_messages (withSystemPrompt co this1 selectedModel)) message = inl error ->
  sendMessage co this message selectedModel
  = (inl error, withSystemPrompt co this1 selectedModel) /\
  saved (withSystemPrompt co this1 selectedModel) = saved this1 /\
  session_overview (withSystemPrompt co this1 selectedModel) = session_overview this1.
Proof.
  intros Hinit Hprimary. unfold sendMessage. rewrite Hinit.
  fold (withSystemPrompt co this1 selectedModel). rewrite Hprimary.
  split; [reflexivity|].
  unfold withSystemPrompt, initializeSystemPrompt.
  destruct (negb (hasSystemPrompt this1)); [|split; reflexivity].
  destruct (negb (isChatPrePromptDisabled co && isPromptOverrideEmpty co));
    split; reflexivity.
Qed.

Lemma sendMessage_primary_failure_witness :
  let this1 := {| aiClient := Some failingClient; currentModel := "gpt-4";
                  session_messages := []; session_overview := ""; saved := 0;
                  posted := [] |} in
  initializeClient hangingCollaborators newManager "gpt-4" = inr (true, None, this1) /\
  sendMessage hangingCollaborators newManager "hi" "gpt-4"
  = (inl (JsError "socket hang up"),
     {| aiClient := Some failingClient; currentModel := "gpt-4";
        session_messages := [systemNote "You are Mode."]; session_overview := "";
        saved := 0; posted := [] |}).
Proof.
  cbv zeta. split; [reflexivity|].
  exact (proj1 (sendMessage_primary_failure hangingCollaborators newManager
                  {| aiClient := Some failingClient; currentModel := "gpt-4";
                     session_messages := []; session_overview := ""; saved := 0;
                     posted := [] |}
                  "hi" "gpt-4" None (JsError "socket hang up") eq_refl eq_refl)).
Defined.

(** X25.  Before the primary exchange the session gets a system prompt
    if it has none, and never a second one.  A session that has a system
    message is left as it is.  One that has none gets exactly one, put
    last: the configured override if that is non-empty, else the base
    prompt of the model, followed by a space and the additional prompt
    when one is configured.  Unless the pre-prompt is disabled with no
    override: then nothing is added, the additional prompt neither.  Doing
    it again changes nothing. *)
Theorem system_prompt_once (co : Collaborators) (this : ChatManager) (m m' : string) :
  (hasSystemPrompt this = true -> withSystemPrompt co this m = this) /\
  (isChatPrePromptDisabled co && isPromptOverrideEmpty co = true ->
   withSystemPrompt co this m = this) /\
  (hasSystemPrompt this = false ->
   isChatPrePromptDisabled co && isPromptOverrideEmpty co = false ->
   session_messages (withSystemPrompt co this m)
   = (session_messages this ++
      [ {| role := system;
           content :=
             Text (orElse (getChatPromptOverride co) (getBaseSystemPrompt co m)
                   +:+ (if isChatAdditionalPromptEmpty co then ""
                        else " " +:+ getChatAdditionalPrompt co));
           name := None; type := None |} ])%list /\
   hasSystemPrompt (withSystemPrompt co this m) = true) /\
  withSystemPrompt co (withSystemPrompt co this m) m' = withSystemPrompt co this m.
Proof.
  assert (Hhas : hasSystemPrompt this = true -> withSystemPrompt co this m = this).
  { intros H. unfold withSystemPrompt. rewrite H. reflexivity. }
  assert (Hoff : isChatPrePromptDisabled co && isPromptOverrideEmpty co = true ->
                 forall t x, withSystemPrompt co t x = t).
  { intros H t x. unfold withSystemPrompt, initializeSystemPrompt. rewrite H.
    destruct (negb (hasSystemPrompt t)); reflexivity. }
  assert (Hadd : hasSystemPrompt this = false ->
                 isChatPrePromptDisabled co && isPromptOverrideEmpty co = false ->
                 session_messages (withSystemPrompt co this m)
                 = (session_messages this ++
                    [ {| role := system;
                         content :=
                           Text (orElse (getChatPromptOverride co) (getBaseSystemPrompt co m)
                                 +:+ (if isChatAdditionalPromptEmpty co then ""
                                      else " " +:+ getChatAdditionalPrompt co));
                         name := None; type := None |} ])%list /\
                 hasSystemPrompt (withSystemPrompt co this m) = true).
  { intros Hno Hon. unfold withSystemPrompt, initializeSystemPrompt.
    rewrite Hno, Hon. cbn [negb session_messages].
    assert (Htext : (if negb (isChatAdditionalPromptEmpty co)
                     then orElse (getChatPromptOverride co) (getBaseSystemPrompt co m)
                          +:+ " " +:+ getChatAdditionalPrompt co
                     else orElse (getChatPromptOverride co) (getBaseSystemPrompt co m))
                    = orElse (getChatPromptOverride co) (getBaseSystemPrompt co m)
                      +:+ (if isChatAdditionalPromptEmpty co then ""
                           else " " +:+ getChatAdditionalPrompt co)).
    { destruct (isChatAdditionalPromptEmpty co); cbn [negb];
        [now rewrite append_nil_r | reflexivity]. }
    rewrite Htext. split; [reflexivity|].
    unfold hasSystemPrompt. cbn [session_messages]. rewrite existsb_app.
    cbn [existsb role]. rewrite bool_decide_eq_true_2 by reflexivity.
    rewrite orb_true_r. reflexivity. }
  split; [exact Hhas|]. split; [intros H; apply Hoff, H|]. split; [exact Hadd|].
  destruct (isChatPrePromptDisabled co && isPromptOverrideEmpty co) eqn:Hd.
  - rewrite !Hoff by reflexivity. reflexivity.
  - destruct (hasSystemPrompt this) eqn:Hh.
    + rewrite Hhas by reflexivity. unfold withSystemPrompt. rewrite Hh. reflexivity.
    + destruct (Hadd eq_refl eq_refl) as [_ Hnow].
      unfold withSystemPrompt at 1. rewrite Hnow. reflexivity.
Qed.

Example system_prompt_once_sample :
  session_messages (withSystemPrompt sampleCollaborators newManager "gpt-4")
  = [systemNote "You are Mode."] /\
  withSystemPrompt sampleCollaborators
    (withSystemPrompt sampleCollaborators newManager "gpt-4") "gpt-4"
  = withSystemPrompt sampleCollaborators newManager "gpt-4".
Proof. split; reflexivity. Qed.
